(** * Strobe controller firmware (PIC16F18856): timer divider search and
      hardware trigger sequencing

    Shallow embedding of [firmware/strobe-pic/main_hardware_trigger.c] and
    [module-strobe-imaging/strobe_pic/interrupt_manager_hardware_trigger.c].

    Integers are modelled as [Z] with the wrap-around of the XC8 types written
    out ([uint8_t], [uint16_t], [uint32_t], and [long] for [labs]); the special
    function registers the code touches are fields of one [machine] record;
    the two loops of the divider search are structural recursions on the
    number of iterations left. *)

From Stdlib Require Import ZArith List Bool Lia.
Import ListNotations.
Local Open Scope Z_scope.

(** ** C integer types *)

Module Cint.

Definition u8 (x : Z) : Z := x mod 2 ^ 8.
Definition u16 (x : Z) : Z := x mod 2 ^ 16.
Definition u32 (x : Z) : Z := x mod 2 ^ 32.

(** Conversion of a 32-bit pattern to [long] (two's complement). *)
Definition s32 (x : Z) : Z :=
  if u32 x <? 2 ^ 31 then u32 x else u32 x - 2 ^ 32.

(** [labs] on [long]; the result is again a [long]. *)
Definition labs (x : Z) : Z := s32 (Z.abs x).

(** Little-endian byte images of 16 and 32-bit objects, as the casts
    [*(uint32_t * )&buf[i]] read and write them on this target. *)
Definition le_bytes16 (x : Z) : list Z :=
  [u8 x; u8 (Z.shiftr x 8)].

Definition le_bytes32 (x : Z) : list Z :=
  [u8 x; u8 (Z.shiftr x 8); u8 (Z.shiftr x 16); u8 (Z.shiftr x 24)].

Definition le_word32 (b0 b1 b2 b3 : Z) : Z :=
  Z.lor (Z.lor (Z.lor (u8 b0) (Z.shiftl (u8 b1) 8)) (Z.shiftl (u8 b2) 16))
        (Z.shiftl (u8 b3) 24).

End Cint.
Import Cint.

(** ** Strobe constants *)

Definition CLOCK_FREQ : Z := 32000000.
Definition PS_PER_TICK : Z := 1000000000 / (CLOCK_FREQ / 1000).
Definition TIME_SCALING : Z := 10.
Definition MAX_TIME_NS : Z :=
  u32 (u32 (u32 (Z.shiftl (u32 PS_PER_TICK) 7) / 1000 * 16) * 255).

(** ** Comms constants *)

Definition PACKET_TYPE_SET_STROBE_ENABLE : Z := 1.
Definition PACKET_TYPE_SET_STROBE_TIMING : Z := 2.
Definition PACKET_TYPE_SET_STROBE_HOLD : Z := 3.
Definition PACKET_TYPE_GET_CAM_READ_TIME : Z := 4.
Definition PACKET_TYPE_SET_TRIGGER_MODE : Z := 5.

(** ** find_scalers_time *)

(** The three output parameters [*prescale], [*postscale], [*period]. *)
Record scalers : Type := Scalers {
  prescale : Z;
  postscale : Z;
  period : Z
}.

(** The running best of the search (the four [*_best] locals). *)
Record search_state : Type := SearchState {
  time_ns_best : Z;
  postscale_best : Z;
  prescale_best : Z;
  period_best : Z
}.

Definition search_init : search_state := SearchState 0 0 0 0.

(** [ticks = (target*(1000/TIME_SCALING) + (PS_PER_TICK>>1)/TIME_SCALING)
            / (PS_PER_TICK/TIME_SCALING)] in [uint32_t] arithmetic. *)
Definition ticks_of (target_time_ns : Z) : Z :=
  u32 (u32 (target_time_ns * (1000 / TIME_SCALING))
       + Z.shiftr PS_PER_TICK 1 / TIME_SCALING)
  / (PS_PER_TICK / TIME_SCALING).

(** The period implied by [rem] and a prescale (rounded shift). *)
Definition period_of (rem prescale_loop : Z) : Z :=
  if prescale_loop =? 0 then rem
  else Z.shiftr (u32 (Z.shiftr rem (prescale_loop - 1) + 1)) 1.

(** The guard of the inner loop body. *)
Definition period_ok (period_loop prescale_loop : Z) : bool :=
  (period_loop >? 0) && (period_loop <=? 255)
  && ((period_loop >? 1) || (prescale_loop >? 0)).

(** Back-conversion of a divider combination to nanoseconds. *)
Definition time_of (prescale_loop period_loop postscale_loop : Z) : Z :=
  u32 (u32 (u32 (Z.shiftl (u32 PS_PER_TICK / TIME_SCALING) prescale_loop)
            * period_loop) * postscale_loop)
  / (1000 / TIME_SCALING).

(** [labs( a - target )] with the subtraction done in [uint32_t]. *)
Definition dist (a target : Z) : Z := labs (s32 (u32 (a - target))).

(** Inner loop: [prescale_loop] runs from [n-1] down to 0, with the early
    [break] on an exact match. *)
Fixpoint prescale_loop_from (n : nat) (target rem postscale_loop : Z)
    (b : search_state) : search_state :=
  match n with
  | O => b
  | S k =>
      let prescale_loop := Z.of_nat k in
      let period_loop := period_of rem prescale_loop in
      if period_ok period_loop prescale_loop then
        let time_ns_loop := time_of prescale_loop period_loop postscale_loop in
        let b' :=
          if dist time_ns_loop target <? dist (time_ns_best b) target
          then SearchState time_ns_loop postscale_loop prescale_loop period_loop
          else b in
        if time_ns_loop =? target then b'
        else prescale_loop_from k target rem postscale_loop b'
      else prescale_loop_from k target rem postscale_loop b
  end.

(** Outer loop: [postscale_loop] runs from [n] down to 1. *)
Fixpoint postscale_loop_from (n : nat) (target ticks : Z)
    (b : search_state) : search_state :=
  match n with
  | O => b
  | S k =>
      let postscale_loop := Z.of_nat (S k) in
      let rem := ticks / postscale_loop in
      postscale_loop_from k target ticks
        (prescale_loop_from 8 target rem postscale_loop b)
  end.

Definition search (target_time_ns : Z) : search_state :=
  postscale_loop_from 16 target_time_ns (ticks_of target_time_ns) search_init.

(** The stores through the output pointers and the returned value. *)
Definition search_result (target_time_ns : Z) : Z * scalers :=
  let b := search target_time_ns in
  (time_ns_best b,
   Scalers (prescale_best b)
           (u8 (postscale_best b - 1))
           (u8 (u32 (period_best b - 1)))).

(** [out] is what the three output locations hold before the call: the early
    return leaves them as they are. *)
Definition find_scalers_time (target_time_ns : Z) (out : scalers)
    : Z * scalers :=
  if target_time_ns >? MAX_TIME_NS then (0, out)
  else search_result target_time_ns.


(** ** Machine state

    The special function registers and bit fields the two files access, the
    globals of [main_hardware_trigger.c], and a log of the timer primitives
    executed so far (writes of [TMR2], writes of the [T2ON] bit field, calls
    of [TMR1_StartSinglePulseAcquisition]), which lets statements count how
    often the wait timer is reset or started. *)

Inductive event : Type :=
| Ev_TMR2_write (v : Z)
| Ev_T2ON_write (v : Z)
| Ev_StartSinglePulseAcquisition.

Record machine : Type := Machine {
  PR2 : Z;  (* wait timer period register *)
  PR4 : Z;  (* duration timer period register *)
  T2CON : Z;  (* wait timer control: ON bit 7, prescale bits 6-4, postscale bits 3-0 *)
  T4CON : Z;  (* duration timer control, same layout *)
  TMR2 : Z;  (* wait timer counter *)
  TMR1 : Z;  (* gate timer counter (16 bits) *)
  T1GGO : bool;  (* T1GCONbits.T1GGO: gate acquisition in progress *)
  TMR1IE : bool;  (* PIE4bits.TMR1IE *)
  TMR1IF : bool;  (* PIR4bits.TMR1IF *)
  PEIE : bool;  (* INTCONbits.PEIE *)
  IOCIE : bool;  (* PIE0bits.IOCIE *)
  IOCIF : bool;  (* PIR0bits.IOCIF *)
  SSP1IE : bool;  (* PIE3bits.SSP1IE *)
  SSP1IF : bool;  (* PIR3bits.SSP1IF *)
  LC3G3POL : bool;  (* strobe hold: output gate polarity *)
  cam_read_time_us : Z;  (* uint16_t global *)
  trigger_mode : Z;  (* uint8_t global: 0 software, 1 hardware *)
  strobe_enabled : Z;  (* uint8_t global *)
  return_buf : list Z;  (* uint8_t return_buf[9] *)
  trace : list event  (* log of the timer primitives executed, oldest first *)
}.

(** Field updates. *)

Definition upd_PR2 (v : Z) (m : machine) : machine :=
  Machine v (PR4 m) (T2CON m) (T4CON m) (TMR2 m) (TMR1 m) (T1GGO m) (TMR1IE
    m) (TMR1IF m) (PEIE m) (IOCIE m) (IOCIF m) (SSP1IE m) (SSP1IF m)
    (LC3G3POL m) (cam_read_time_us m) (trigger_mode m) (strobe_enabled m)
    (return_buf m) (trace m).

Definition upd_PR4 (v : Z) (m : machine) : machine :=
  Machine (PR2 m) v (T2CON m) (T4CON m) (TMR2 m) (TMR1 m) (T1GGO m) (TMR1IE
    m) (TMR1IF m) (PEIE m) (IOCIE m) (IOCIF m) (SSP1IE m) (SSP1IF m)
    (LC3G3POL m) (cam_read_time_us m) (trigger_mode m) (strobe_enabled m)
    (return_buf m) (trace m).

Definition upd_T2CON (v : Z) (m : machine) : machine :=
  Machine (PR2 m) (PR4 m) v (T4CON m) (TMR2 m) (TMR1 m) (T1GGO m) (TMR1IE m)
    (TMR1IF m) (PEIE m) (IOCIE m) (IOCIF m) (SSP1IE m) (SSP1IF m) (LC3G3POL
    m) (cam_read_time_us m) (trigger_mode m) (strobe_enabled m) (return_buf
    m) (trace m).

Definition upd_T4CON (v : Z) (m : machine) : machine :=
  Machine (PR2 m) (PR4 m) (T2CON m) v (TMR2 m) (TMR1 m) (T1GGO m) (TMR1IE m)
    (TMR1IF m) (PEIE m) (IOCIE m) (IOCIF m) (SSP1IE m) (SSP1IF m) (LC3G3POL
    m) (cam_read_time_us m) (trigger_mode m) (strobe_enabled m) (return_buf
    m) (trace m).

Definition upd_TMR2 (v : Z) (m : machine) : machine :=
  Machine (PR2 m) (PR4 m) (T2CON m) (T4CON m) v (TMR1 m) (T1GGO m) (TMR1IE
    m) (TMR1IF m) (PEIE m) (IOCIE m) (IOCIF m) (SSP1IE m) (SSP1IF m)
    (LC3G3POL m) (cam_read_time_us m) (trigger_mode m) (strobe_enabled m)
    (return_buf m) (trace m).

Definition upd_TMR1 (v : Z) (m : machine) : machine :=
  Machine (PR2 m) (PR4 m) (T2CON m) (T4CON m) (TMR2 m) v (T1GGO m) (TMR1IE
    m) (TMR1IF m) (PEIE m) (IOCIE m) (IOCIF m) (SSP1IE m) (SSP1IF m)
    (LC3G3POL m) (cam_read_time_us m) (trigger_mode m) (strobe_enabled m)
    (return_buf m) (trace m).

Definition upd_T1GGO (v : bool) (m : machine) : machine :=
  Machine (PR2 m) (PR4 m) (T2CON m) (T4CON m) (TMR2 m) (TMR1 m) v (TMR1IE m)
    (TMR1IF m) (PEIE m) (IOCIE m) (IOCIF m) (SSP1IE m) (SSP1IF m) (LC3G3POL
    m) (cam_read_time_us m) (trigger_mode m) (strobe_enabled m) (return_buf
    m) (trace m).

Definition upd_TMR1IE (v : bool) (m : machine) : machine :=
  Machine (PR2 m) (PR4 m) (T2CON m) (T4CON m) (TMR2 m) (TMR1 m) (T1GGO m) v
    (TMR1IF m) (PEIE m) (IOCIE m) (IOCIF m) (SSP1IE m) (SSP1IF m) (LC3G3POL
    m) (cam_read_time_us m) (trigger_mode m) (strobe_enabled m) (return_buf
    m) (trace m).

Definition upd_TMR1IF (v : bool) (m : machine) : machine :=
  Machine (PR2 m) (PR4 m) (T2CON m) (T4CON m) (TMR2 m) (TMR1 m) (T1GGO m)
    (TMR1IE m) v (PEIE m) (IOCIE m) (IOCIF m) (SSP1IE m) (SSP1IF m)
    (LC3G3POL m) (cam_read_time_us m) (trigger_mode m) (strobe_enabled m)
    (return_buf m) (trace m).

Definition upd_LC3G3POL (v : bool) (m : machine) : machine :=
  Machine (PR2 m) (PR4 m) (T2CON m) (T4CON m) (TMR2 m) (TMR1 m) (T1GGO m)
    (TMR1IE m) (TMR1IF m) (PEIE m) (IOCIE m) (IOCIF m) (SSP1IE m) (SSP1IF m)
    v (cam_read_time_us m) (trigger_mode m) (strobe_enabled m) (return_buf
    m) (trace m).

Definition upd_cam_read_time_us (v : Z) (m : machine) : machine :=
  Machine (PR2 m) (PR4 m) (T2CON m) (T4CON m) (TMR2 m) (TMR1 m) (T1GGO m)
    (TMR1IE m) (TMR1IF m) (PEIE m) (IOCIE m) (IOCIF m) (SSP1IE m) (SSP1IF m)
    (LC3G3POL m) v (trigger_mode m) (strobe_enabled m) (return_buf m) (trace
    m).

Definition upd_trigger_mode (v : Z) (m : machine) : machine :=
  Machine (PR2 m) (PR4 m) (T2CON m) (T4CON m) (TMR2 m) (TMR1 m) (T1GGO m)
    (TMR1IE m) (TMR1IF m) (PEIE m) (IOCIE m) (IOCIF m) (SSP1IE m) (SSP1IF m)
    (LC3G3POL m) (cam_read_time_us m) v (strobe_enabled m) (return_buf m)
    (trace m).

Definition upd_strobe_enabled (v : Z) (m : machine) : machine :=
  Machine (PR2 m) (PR4 m) (T2CON m) (T4CON m) (TMR2 m) (TMR1 m) (T1GGO m)
    (TMR1IE m) (TMR1IF m) (PEIE m) (IOCIE m) (IOCIF m) (SSP1IE m) (SSP1IF m)
    (LC3G3POL m) (cam_read_time_us m) (trigger_mode m) v (return_buf m)
    (trace m).

Definition upd_return_buf (v : list Z) (m : machine) : machine :=
  Machine (PR2 m) (PR4 m) (T2CON m) (T4CON m) (TMR2 m) (TMR1 m) (T1GGO m)
    (TMR1IE m) (TMR1IF m) (PEIE m) (IOCIE m) (IOCIF m) (SSP1IE m) (SSP1IF m)
    (LC3G3POL m) (cam_read_time_us m) (trigger_mode m) (strobe_enabled m) v
    (trace m).

Definition upd_trace (v : list event) (m : machine) : machine :=
  Machine (PR2 m) (PR4 m) (T2CON m) (T4CON m) (TMR2 m) (TMR1 m) (T1GGO m)
    (TMR1IE m) (TMR1IF m) (PEIE m) (IOCIE m) (IOCIF m) (SSP1IE m) (SSP1IF m)
    (LC3G3POL m) (cam_read_time_us m) (trigger_mode m) (strobe_enabled m)
    (return_buf m) v.


Definition log (e : event) (m : machine) : machine :=
  upd_trace (trace m ++ [e]) m.

(** Bit 7 of [T2CON] and of [T4CON] is the timer's ON bit (the mask
    [0b10000000] of [set_strobe_timing]); a one-bit field keeps the low bit
    of what is assigned to it. *)
Definition ON_bit (con : Z) : bool := Z.testbit con 7.

Definition with_ON_bit (v con : Z) : Z :=
  Z.lor (Z.land con 127) (Z.shiftl (Z.land v 1) 7).

Definition write_T2ON (v : Z) (m : machine) : machine :=
  log (Ev_T2ON_write (Z.land v 1)) (upd_T2CON (with_ON_bit v (T2CON m)) m).

Definition write_T4ON (v : Z) (m : machine) : machine :=
  upd_T4CON (with_ON_bit v (T4CON m)) m.

Definition write_TMR2 (v : Z) (m : machine) : machine :=
  log (Ev_TMR2_write (u8 v)) (upd_TMR2 (u8 v) m).

(** ** Gate timer primitives *)

(** Modelled from the spec: [TMR1_StartSinglePulseAcquisition], [TMR1_ReadTimer]
    and [TMR1_WriteTimer] of the generated [tmr1.c] are not among the sources;
    they are the "gate-capture start primitive" (capture is in progress until
    the gate closes, which [T1GGO == 0] reports), the "free-running counter
    read" and its reset. *)
Definition TMR1_StartSinglePulseAcquisition (m : machine) : machine :=
  log Ev_StartSinglePulseAcquisition (upd_T1GGO true m).

Definition TMR1_ReadTimer (m : machine) : Z := u16 (TMR1 m).

Definition TMR1_WriteTimer (v : Z) (m : machine) : machine :=
  upd_TMR1 (u16 v) m.

(** ** set_strobe_enable, set_strobe_hold *)

Definition set_strobe_enable (enable : Z) (m : machine) : machine :=
  let m := upd_strobe_enabled (if enable =? 0 then 0 else 1) m in
  if trigger_mode m =? 0 then write_T4ON 1 (write_T2ON enable m)
  else write_T4ON 1 (write_T2ON 0 m).

Definition set_strobe_hold (hold : Z) (m : machine) : machine :=
  upd_LC3G3POL (negb (hold =? 0)) m.

(** ** set_trigger_mode *)

Definition set_trigger_mode (mode : Z) (m : machine) : machine :=
  let m := upd_trigger_mode (if mode =? 1 then 1 else 0) m in
  if trigger_mode m =? 1 then upd_TMR1IF false (upd_TMR1IE true m)
  else upd_TMR1IE false m.

(** ** hardware_trigger_strobe *)

Definition hardware_trigger_strobe (m : machine) : machine :=
  if negb (strobe_enabled m =? 0) && (trigger_mode m =? 1) then
    TMR1_StartSinglePulseAcquisition (write_T2ON 1 (write_TMR2 0 m))
  else m.

(** ** set_strobe_timing

    The register writes of the update are kept as a list of statements, so
    that the same statements can be run in sequence or interleaved with the
    interrupt handler. *)

(** The automatic variables of [set_strobe_timing] that survive a statement. *)
Record timing_frame : Type := TimingFrame {
  wait_scalers : scalers;       (* wait_prescale, wait_postscale, wait_period *)
  duration_scalers : scalers;   (* duration_prescale, ..._postscale, ..._period *)
  t4con_copy : Z
}.

Definition statement : Type := timing_frame * machine -> timing_frame * machine.

(** [( con & 0b10000000 ) | ( prescale << 4 ) | postscale], stored in an
    8-bit register. *)
Definition con_value (con : Z) (s : scalers) : Z :=
  u8 (Z.lor (Z.lor (Z.land con 128) (Z.shiftl (prescale s) 4)) (postscale s)).

Definition timing_update : list statement :=
  [ (* t4con_copy = T4CON; *)
    (fun '(f, m) =>
       (TimingFrame (wait_scalers f) (duration_scalers f) (T4CON m), m));
    (* T4CON = 0; *)
    (fun '(f, m) => (f, upd_T4CON 0 m));
    (* PR2 = wait_period; *)
    (fun '(f, m) => (f, upd_PR2 (period (wait_scalers f)) m));
    (* PR4 = duration_period; *)
    (fun '(f, m) => (f, upd_PR4 (period (duration_scalers f)) m));
    (* T2CON = ( T2CON & 0b10000000 ) | ( wait_prescale << 4 ) | wait_postscale; *)
    (fun '(f, m) => (f, upd_T2CON (con_value (T2CON m) (wait_scalers f)) m));
    (* T4CON = ( t4con_copy & 0b10000000 ) | ( duration_prescale << 4 )
               | duration_postscale; *)
    (fun '(f, m) =>
       (f, upd_T4CON (con_value (t4con_copy f) (duration_scalers f)) m)) ].

Definition run (stmts : list statement) (s : timing_frame * machine)
    : timing_frame * machine :=
  fold_left (fun s stmt => stmt s) stmts s.

Section Firmware.

(** What the uninitialised automatic variables of [set_strobe_timing] hold at
    entry. *)
Variable stack : timing_frame.

(** The status codes of [common.h], which is not among the sources. *)
Variables ERR_OK ERR_PACKET_INVALID : Z.

(** The handlers of the other interrupt sources, which are not among the
    sources. *)
Variables PIN_MANAGER_IOC SPI1_ISR : machine -> machine.

(** Returns the two achieved times written back through the pointers and the
    machine after the call. *)
Definition set_strobe_timing (wait_target_ns duration_target_ns : Z)
    (m : machine) : Z * Z * machine :=
  let '(wait_ns, ws) :=
    find_scalers_time wait_target_ns (wait_scalers stack) in
  let '(duration_ns, ds) :=
    find_scalers_time duration_target_ns (duration_scalers stack) in
  if (wait_ns >? 0) && (duration_ns >? 0) then
    (wait_ns, duration_ns,
     snd (run timing_update (TimingFrame ws ds (t4con_copy stack), m)))
  else (wait_ns, duration_ns, m).

(** ** INTERRUPT_InterruptManager *)

Definition INTERRUPT_InterruptManager (m : machine) : machine :=
  if IOCIE m && IOCIF m then PIN_MANAGER_IOC m
  else if PEIE m then
    if TMR1IE m && TMR1IF m then
      let m := upd_TMR1IF false m in
      if negb (T1GGO m) then
        TMR1_StartSinglePulseAcquisition (hardware_trigger_strobe m)
      else m
    else if SSP1IE m && SSP1IF m then SPI1_ISR m
    else m
  else m.

(** A gate edge as the hardware presents it: the acquisition completes
    ([T1GGO] reads 0) and the gate interrupt flag is raised; the handler runs
    when the interrupt is enabled (global interrupts are enabled once at the
    start of [main] and never disabled). *)
Definition gate_edge (m : machine) : machine :=
  let m := upd_TMR1IF true (upd_T1GGO false m) in
  if PEIE m && TMR1IE m then INTERRUPT_InterruptManager m else m.

(** Executions of a statement list in the foreground with gate edges arriving
    between statements. *)
Inductive interleaved
  : list statement -> timing_frame * machine -> timing_frame * machine -> Prop :=
| interleaved_done (s : timing_frame * machine) :
    interleaved [] s s
| interleaved_stmt (stmt : statement) (rest : list statement)
    (s s' : timing_frame * machine) :
    interleaved rest (stmt s) s' ->
    interleaved (stmt :: rest) s s'
| interleaved_edge (stmts : list statement) (f : timing_frame)
    (m : machine) (s' : timing_frame * machine) :
    interleaved stmts (f, gate_edge m) s' ->
    interleaved stmts (f, m) s'.

(** ** Command dispatch (the [switch] of [main]) *)

(** What [spi_packet_read] delivers: the type, the receive buffer and the
    payload size. *)
Record packet : Type := Packet {
  packet_type : Z;
  packet_data : list Z;
  packet_data_size : Z
}.

(** What is handed to [spi_packet_write]: the type and the bytes sent. *)
Record response : Type := Response {
  response_type : Z;
  response_bytes : list Z
}.

Definition data_byte (p : packet) (i : nat) : Z := nth i (packet_data p) 0.

(** [spi_packet_write( packet_type, &rc, 1 )]. *)
Definition status_only (p : packet) (rc : Z) : option response :=
  Some (Response (packet_type p) [u8 rc]).

Definition dispatch (p : packet) (m : machine) : machine * option response :=
  let ty := packet_type p in
  if ty =? 0 then (m, None)
  else if ty =? PACKET_TYPE_SET_STROBE_ENABLE then
    if packet_data_size p =? 1 then
      (set_strobe_enable (if data_byte p 0 =? 0 then 0 else 1) m,
       status_only p ERR_OK)
    else (m, status_only p ERR_PACKET_INVALID)
  else if ty =? PACKET_TYPE_SET_STROBE_TIMING then
    if packet_data_size p =? 8 then
      let strobe_wait_ns :=
        le_word32 (data_byte p 0) (data_byte p 1)
                  (data_byte p 2) (data_byte p 3) in
      let strobe_period_ns :=
        le_word32 (data_byte p 4) (data_byte p 5)
                  (data_byte p 6) (data_byte p 7) in
      let '(wait_ns, duration_ns, m) :=
        set_strobe_timing strobe_wait_ns strobe_period_ns m in
      let buf := u8 ERR_OK :: le_bytes32 wait_ns ++ le_bytes32 duration_ns in
      (upd_return_buf buf m, Some (Response ty (firstn 9 buf)))
    else (m, status_only p ERR_PACKET_INVALID)
  else if ty =? PACKET_TYPE_SET_STROBE_HOLD then
    if packet_data_size p =? 1 then
      (set_strobe_hold (if data_byte p 0 =? 0 then 0 else 1) m,
       status_only p ERR_OK)
    else (m, status_only p ERR_PACKET_INVALID)
  else if ty =? PACKET_TYPE_GET_CAM_READ_TIME then
    if packet_data_size p =? 0 then
      let buf :=
        u8 ERR_OK :: le_bytes16 (cam_read_time_us m)
        ++ skipn 3 (return_buf m) in
      (upd_return_buf buf m, Some (Response ty (firstn 3 buf)))
    else (m, status_only p ERR_PACKET_INVALID)
  else if ty =? PACKET_TYPE_SET_TRIGGER_MODE then
    if packet_data_size p =? 1 then
      (set_trigger_mode (if data_byte p 0 =? 0 then 0 else 1) m,
       status_only p ERR_OK)
    else (m, status_only p ERR_PACKET_INVALID)
  else (m, None).

(** The gate measurement at the end of each iteration of the main loop. *)
Definition poll_gate (m : machine) : machine :=
  if negb (T1GGO m) then
    TMR1_StartSinglePulseAcquisition
      (TMR1_WriteTimer 0 (upd_cam_read_time_us (TMR1_ReadTimer m) m))
  else m.

(** One iteration of the main loop; [rx] is the packet for which
    [spi_packet_read] returned [ERR_OK], if it did. *)
Definition main_loop_body (rx : option packet) (m : machine)
    : machine * option response :=
  let '(m, r) :=
    match rx with
    | Some p => dispatch p m
    | None => (m, None)
    end in
  (poll_gate m, r).

End Firmware.

(** ** Vocabulary of the statements about the search *)

(** A divider combination the timer accepts: prescale 0-7, postscale count
    1-16, period count 1-255, not period 1 with prescale 0. *)
Definition valid_combination (pre post per : Z) : bool :=
  (0 <=? pre) && (pre <=? 7) && (1 <=? post) && (post <=? 16)
  && (1 <=? per) && (per <=? 255) && negb ((per =? 1) && (pre =? 0)).

(** [achieved] is at least as close to [target] as every valid combination's
    back-converted time. *)
Definition closest_among_all_valid (target achieved : Z) : Prop :=
  forall pre post per,
    valid_combination pre post per = true ->
    Z.abs (achieved - target) <= Z.abs (time_of pre per post - target).

(** The one period the search derives for a (prescale, postscale) pair, and
    whether it passes the guard of the loop body. *)
Definition examined_period (target pre post : Z) : Z :=
  period_of (ticks_of target / post) pre.

Definition examined (target pre post : Z) : bool :=
  period_ok (examined_period target pre post) pre.

Definition examined_time (target pre post : Z) : Z :=
  time_of pre (examined_period target pre post) post.

Definition postscale_values : list Z :=
  [16; 15; 14; 13; 12; 11; 10; 9; 8; 7; 6; 5; 4; 3; 2; 1].
Definition prescale_values : list Z := [7; 6; 5; 4; 3; 2; 1; 0].

(** No (postscale, prescale) pair of the two loops passes the guard. *)
Definition none_examined (target : Z) : bool :=
  forallb (fun post =>
    forallb (fun pre => negb (examined target pre post)) prescale_values)
    postscale_values.

(** Back-conversion of the stored triple (postscale and period are stored as
    count minus one), by the expression the search uses for [time_ns_loop]. *)
Definition back_convert (s : scalers) : Z :=
  time_of (prescale s) (period s + 1) (postscale s + 1).

(** Distance of the running best from the target. *)
Definition search_error (target : Z) (b : search_state) : Z :=
  Z.abs (time_ns_best b - target).

(** What the running best can be: nothing yet, or one of the pairs of the
    loops with its period and back-converted time. *)
Inductive recorded (ticks : Z) : search_state -> Prop :=
| recorded_none : recorded ticks search_init
| recorded_candidate (pre post : Z) :
    0 <= pre <= 7 -> 1 <= post <= 16 ->
    period_ok (period_of (ticks / post) pre) pre = true ->
    recorded ticks
      (SearchState (time_of pre (period_of (ticks / post) pre) post)
                   post pre (period_of (ticks / post) pre)).

(** [achieved] is at least as close to [target] as the back-converted time of
    every pair the search examines, and it is zero (the initial best) or the
    back-converted time of one of these pairs. *)
Definition closest_among_examined (target achieved : Z) : Prop :=
  (forall pre post,
      0 <= pre <= 7 -> 1 <= post <= 16 ->
      examined target pre post = true ->
      Z.abs (achieved - target)
      <= Z.abs (examined_time target pre post - target))
  /\ (achieved = 0 \/
      exists pre post,
        valid_combination pre post (examined_period target pre post) = true
        /\ examined target pre post = true
        /\ achieved = examined_time target pre post).

(** The limit as the specification words it: clock-tick period x 2^7 x 256
    x 16, in nanoseconds (the tick period is [PS_PER_TICK] picoseconds). *)
Definition stated_max_time_ns : Z := PS_PER_TICK * 2 ^ 7 * 256 * 16 / 1000.

(** The stored triple is in the ranges of the divider registers. *)
Definition scalers_in_range (s : scalers) : Prop :=
  0 <= prescale s <= 7 /\ 0 <= postscale s <= 15 /\ 0 <= period s <= 255.

(** The returned time is the back-conversion of the stored triple, which is
    the tick period times the three divider counts, in whole nanoseconds. *)
Definition reproduces (achieved : Z) (s : scalers) : Prop :=
  achieved = back_convert s
  /\ 1000 * achieved
     <= PS_PER_TICK * 2 ^ prescale s * (period s + 1) * (postscale s + 1)
     < 1000 * (achieved + 1).

(** ** Vocabulary of the statements about the machine *)

(** The divider registers of the two timers. *)
Definition dividers (m : machine) : Z * Z * Z * Z :=
  (PR2 m, PR4 m, T2CON m, T4CON m).

(** The handler reaches the gate branch: no interrupt-on-change is pending,
    peripheral interrupts are on, the gate interrupt is enabled and flagged,
    and the gate has closed. *)
Definition gate_edge_taken (m : machine) : bool :=
  negb (IOCIE m && IOCIF m) && PEIE m && TMR1IE m && TMR1IF m
  && negb (T1GGO m).

(** [strobe_enabled && ( trigger_mode == 1 )]. *)
Definition trigger_armed (m : machine) : bool :=
  negb (strobe_enabled m =? 0) && (trigger_mode m =? 1).

(** The payload size each command expects. *)
Definition expected_size (ty : Z) : option Z :=
  if ty =? PACKET_TYPE_SET_STROBE_ENABLE then Some 1
  else if ty =? PACKET_TYPE_SET_STROBE_TIMING then Some 8
  else if ty =? PACKET_TYPE_SET_STROBE_HOLD then Some 1
  else if ty =? PACKET_TYPE_GET_CAM_READ_TIME then Some 0
  else if ty =? PACKET_TYPE_SET_TRIGGER_MODE then Some 1
  else None.

(** The two targets of a SET_STROBE_TIMING payload. *)
Definition wait_request (p : packet) : Z :=
  le_word32 (data_byte p 0) (data_byte p 1) (data_byte p 2) (data_byte p 3).

Definition duration_request (p : packet) : Z :=
  le_word32 (data_byte p 4) (data_byte p 5) (data_byte p 6) (data_byte p 7).

(** The machine after the first [k] statements of the timing update. *)
Definition during_update (k : nat) (f : timing_frame) (m : machine) : machine :=
  snd (run (firstn k timing_update) (f, m)).

(** The gate interrupt is disabled at every point strictly inside the
    update. *)
Definition gate_interrupt_masked_during_update (f : timing_frame)
    (m : machine) : Prop :=
  forall k, (0 < k < 6)%nat -> TMR1IE (during_update k f m) = false.

(** A machine after reset, and the same machine once the host has selected
    hardware trigger mode and enabled the strobe. *)
Definition reset_machine : machine :=
  Machine 0 0 0 0 0 0 true false false true false false false false false
          0 0 0 [0; 0; 0; 0; 0; 0; 0; 0; 0] [].

Definition armed_machine : machine :=
  set_strobe_enable 1 (set_trigger_mode 1 reset_machine).

(** The hardware raising the gate interrupt flag as the gate closes. *)
Definition raise_gate_flag (m : machine) : machine :=
  upd_TMR1IF true (upd_T1GGO false m).

(** ** Vocabulary of the further properties *)

(** How a timer reads its control register: the prescale select in bits 6-4
    and the postscale select in bits 3-0, the fields [set_strobe_timing]
    writes. *)
Definition con_prescale (con : Z) : Z := Z.land (Z.shiftr con 4) 7.
Definition con_postscale (con : Z) : Z := Z.land con 15.

Definition wait_timer_scalers (m : machine) : scalers :=
  Scalers (con_prescale (T2CON m)) (con_postscale (T2CON m)) (PR2 m).

Definition duration_timer_scalers (m : machine) : scalers :=
  Scalers (con_prescale (T4CON m)) (con_postscale (T4CON m)) (PR4 m).

Definition mode_consistent (m : machine) : Prop :=
  (trigger_mode m = 0 \/ trigger_mode m = 1)
  /\ (strobe_enabled m = 0 \/ strobe_enabled m = 1)
  /\ TMR1IE m = (trigger_mode m =? 1).

Definition main_loop (stack : timing_frame) (ERR_OK ERR_PACKET_INVALID : Z)
    (rxs : list (option packet)) (m : machine) : machine :=
  fold_left
    (fun m rx => fst (main_loop_body stack ERR_OK ERR_PACKET_INVALID rx m))
    rxs m.


Definition mode_fields (m : machine) : Z * Z * bool :=
  (trigger_mode m, strobe_enabled m, TMR1IE m).

(** * Properties *)

(** ** Constants *)

Lemma PS_PER_TICK_value : PS_PER_TICK = 31250.
Proof. reflexivity. Qed.

Lemma MAX_TIME_NS_value : MAX_TIME_NS = 16320000.
Proof. reflexivity. Qed.

(** ** Integer conversions *)

Lemma u32_small (x : Z) : 0 <= x < 2 ^ 32 -> u32 x = x.
Proof. intros H. unfold u32. now apply Z.mod_small. Qed.

Lemma u8_small (x : Z) : 0 <= x < 2 ^ 8 -> u8 x = x.
Proof. intros H. unfold u8. now apply Z.mod_small. Qed.

Lemma s32_u32_diff (x : Z) : - 2 ^ 31 <= x < 2 ^ 31 -> s32 (u32 x) = x.
Proof.
  intros H. unfold s32, u32. rewrite Z.mod_mod by lia.
  destruct (Z_lt_le_dec x 0) as [Hneg | Hpos].
  - assert (E : x mod 2 ^ 32 = x + 2 ^ 32).
    { symmetry. apply (Z.mod_unique x (2 ^ 32) (-1)); lia. }
    rewrite E. destruct (Z.ltb_spec (x + 2 ^ 32) (2 ^ 31)); lia.
  - rewrite Z.mod_small by lia.
    destruct (Z.ltb_spec x (2 ^ 31)); lia.
Qed.

Lemma s32_small (x : Z) : 0 <= x < 2 ^ 31 -> s32 x = x.
Proof.
  intros H. rewrite <- (u32_small x) at 1 by lia.
  apply s32_u32_diff. lia.
Qed.

Lemma dist_abs (a target : Z) :
  0 <= a < 2 ^ 31 -> 0 <= target < 2 ^ 31 ->
  dist a target = Z.abs (a - target).
Proof.
  intros Ha Ht. unfold dist, labs.
  rewrite (s32_u32_diff (a - target)) by lia.
  apply s32_small. lia.
Qed.

(** The four bytes written for a 32-bit value read back as that value. *)
Ltac byte_bits :=
  repeat match goal with
  | |- context [Z.testbit (?a mod 2 ^ 8) ?i] =>
      first [ rewrite (Z.testbit_neg_r (a mod 2 ^ 8) i) by lia
            | rewrite (Z.mod_pow2_bits_low a 8 i) by lia
            | rewrite (Z.mod_pow2_bits_high a 8 i) by lia ]
  end.

Lemma le_word32_le_bytes32 (x : Z) :
  0 <= x < 2 ^ 32 ->
  le_word32 (nth 0 (le_bytes32 x) 0) (nth 1 (le_bytes32 x) 0)
            (nth 2 (le_bytes32 x) 0) (nth 3 (le_bytes32 x) 0) = x.
Proof.
  intros Hx. cbn [nth le_bytes32]. unfold le_word32, u8.
  rewrite !Z.mod_mod by lia.
  apply Z.bits_inj'. intros n Hn.
  rewrite !Z.lor_spec, !Z.shiftl_spec by lia.
  assert (Hhigh : 32 <= n -> Z.testbit x n = false).
  { intros H. rewrite <- (Z.mod_small x (2 ^ 32)) by lia.
    apply Z.mod_pow2_bits_high. lia. }
  assert (C : n < 8 \/ 8 <= n < 16 \/ 16 <= n < 24 \/ 24 <= n < 32 \/ 32 <= n)
    by lia.
  destruct C as [C | [C | [C | [C | C]]]]; byte_bits;
    rewrite ?Z.shiftr_spec by lia;
    rewrite ?Z.sub_add, ?orb_false_r, ?orb_false_l;
    try reflexivity.
  symmetry. now apply Hhigh.
Qed.

(** ** The candidates of the search *)

Lemma period_ok_bounds (p pre : Z) :
  period_ok p pre = true -> 1 <= p <= 255 /\ (1 < p \/ 0 < pre).
Proof.
  unfold period_ok. intros H.
  apply andb_prop in H as [H H3]. apply andb_prop in H as [H1 H2].
  apply orb_prop in H3. rewrite !Z.gtb_ltb, !Z.ltb_lt in *.
  rewrite Z.leb_le in H2. lia.
Qed.

Lemma time_of_exact (pre per post : Z) :
  0 <= pre <= 7 -> 1 <= per <= 255 -> 1 <= post <= 16 ->
  time_of pre per post = 3125 * 2 ^ pre * per * post / 100
  /\ 0 < time_of pre per post <= MAX_TIME_NS.
Proof.
  intros Hpre Hper Hpost. unfold time_of.
  change (u32 PS_PER_TICK / TIME_SCALING) with 3125.
  change (1000 / TIME_SCALING) with 100.
  rewrite Z.shiftl_mul_pow2 by lia.
  assert (Hpow : 1 <= 2 ^ pre <= 128).
  { split.
    - change 1 with (2 ^ 0). apply Z.pow_le_mono_r; lia.
    - change 128 with (2 ^ 7). apply Z.pow_le_mono_r; lia. }
  assert (H1 : 0 <= 3125 * 2 ^ pre <= 400000) by lia.
  assert (H2 : 3125 <= 3125 * 2 ^ pre * per <= 102000000) by nia.
  rewrite (u32_small (3125 * 2 ^ pre)) by lia.
  rewrite (u32_small (3125 * 2 ^ pre * per)) by lia.
  assert (H3 : 3125 <= 3125 * 2 ^ pre * per * post <= 1632000000) by nia.
  rewrite (u32_small (3125 * 2 ^ pre * per * post)) by lia.
  split; [reflexivity |].
  rewrite MAX_TIME_NS_value. split.
  - apply Z.div_str_pos. lia.
  - apply Z.div_le_upper_bound; lia.
Qed.

(** ** Invariant of the two loops *)

Section SearchInvariant.

Variables target ticks : Z.
Hypothesis target_in_range : 0 <= target <= MAX_TIME_NS.

Lemma candidate_time_range (pre post : Z) :
  0 <= pre <= 7 -> 1 <= post <= 16 ->
  period_ok (period_of (ticks / post) pre) pre = true ->
  0 < time_of pre (period_of (ticks / post) pre) post <= MAX_TIME_NS.
Proof.
  intros Hpre Hpost Hok. apply period_ok_bounds in Hok as [Hper _].
  now apply time_of_exact.
Qed.

Lemma recorded_time_range (b : search_state) :
  recorded ticks b -> 0 <= time_ns_best b <= MAX_TIME_NS.
Proof.
  intros [| pre post Hpre Hpost Hok]; unfold search_init; cbn [time_ns_best].
  - rewrite MAX_TIME_NS_value. lia.
  - pose proof (candidate_time_range pre post Hpre Hpost Hok). lia.
Qed.

Lemma prescale_loop_from_S (k : nat) (rem post : Z) (b : search_state) :
  prescale_loop_from (S k) target rem post b =
  if period_ok (period_of rem (Z.of_nat k)) (Z.of_nat k) then
    let t := time_of (Z.of_nat k) (period_of rem (Z.of_nat k)) post in
    let b' :=
      if dist t target <? dist (time_ns_best b) target
      then SearchState t post (Z.of_nat k) (period_of rem (Z.of_nat k))
      else b in
    if t =? target then b' else prescale_loop_from k target rem post b'
  else prescale_loop_from k target rem post b.
Proof. reflexivity. Qed.

Lemma postscale_loop_from_S (k : nat) (b : search_state) :
  postscale_loop_from (S k) target ticks b =
  postscale_loop_from k target ticks
    (prescale_loop_from 8 target (ticks / Z.of_nat (S k)) (Z.of_nat (S k)) b).
Proof. cbn [postscale_loop_from]. reflexivity. Qed.

Lemma prescale_loop_from_inv (post : Z) (Hpost : 1 <= post <= 16) :
  forall (n : nat) (b : search_state),
    (n <= 8)%nat -> recorded ticks b ->
    let b' := prescale_loop_from n target (ticks / post) post b in
    recorded ticks b' /\ search_error target b' <= search_error target b /\
    forall pre, 0 <= pre < Z.of_nat n ->
      period_ok (period_of (ticks / post) pre) pre = true ->
      search_error target b'
      <= Z.abs (time_of pre (period_of (ticks / post) pre) post - target).
Proof.
  induction n as [| k IH]; intros b Hn Hb.
  - cbn. repeat split; [assumption | lia | intros; lia].
  - cbv zeta. rewrite prescale_loop_from_S.
    destruct (period_ok (period_of (ticks / post) (Z.of_nat k)) (Z.of_nat k))
      eqn:Hok.
    + assert (Hk : 0 <= Z.of_nat k <= 7) by lia.
      pose proof (candidate_time_range _ _ Hk Hpost Hok) as Ht.
      pose proof (recorded_time_range b Hb) as Hbest.
      pose proof target_in_range as Htgt.
      rewrite MAX_TIME_NS_value in Ht, Hbest, Htgt.
      cbv zeta.
      set (t := time_of (Z.of_nat k) (period_of (ticks / post) (Z.of_nat k)) post)
        in *.
      rewrite (dist_abs t target), (dist_abs (time_ns_best b) target) by lia.
      set (b1 := if Z.abs (t - target) <? Z.abs (time_ns_best b - target)
                 then SearchState t post (Z.of_nat k)
                        (period_of (ticks / post) (Z.of_nat k))
                 else b).
      assert (Hb1 : recorded ticks b1 /\ search_error target b1 <= search_error target b
                    /\ search_error target b1 <= Z.abs (t - target)).
      { subst b1. destruct (Z.ltb_spec (Z.abs (t - target))
                                       (Z.abs (time_ns_best b - target))).
        - split; [now apply recorded_candidate |].
          unfold search_error; cbn. lia.
        - split; [assumption |]. unfold search_error. lia. }
      destruct Hb1 as (Hrec1 & Hle1 & Hcov1).
      destruct (Z.eqb_spec t target) as [Heq | Hne].
      * repeat split; [assumption | assumption |].
        intros pre _ _. rewrite Heq, Z.sub_diag in Hcov1. cbn in Hcov1.
        unfold search_error in *. lia.
      * destruct (IH b1 ltac:(lia) Hrec1) as (Hrec' & Hle' & Hcov').
        repeat split; [assumption | lia |].
        intros pre Hpre Hokp.
        destruct (Z.eq_dec pre (Z.of_nat k)) as [-> | Hlt].
        -- fold t. lia.
        -- apply Hcov'; [lia | assumption].
    + destruct (IH b ltac:(lia) Hb) as (Hrec' & Hle' & Hcov').
      repeat split; [assumption | assumption |].
      intros pre Hpre Hokp.
      destruct (Z.eq_dec pre (Z.of_nat k)) as [-> | Hlt].
      * congruence.
      * apply Hcov'; [lia | assumption].
Qed.

Lemma postscale_loop_from_inv :
  forall (n : nat) (b : search_state),
    (n <= 16)%nat -> recorded ticks b ->
    let b' := postscale_loop_from n target ticks b in
    recorded ticks b' /\ search_error target b' <= search_error target b /\
    forall pre post, 0 <= pre <= 7 -> 1 <= post <= Z.of_nat n ->
      period_ok (period_of (ticks / post) pre) pre = true ->
      search_error target b'
      <= Z.abs (time_of pre (period_of (ticks / post) pre) post - target).
Proof.
  induction n as [| k IH]; intros b Hn Hb.
  - cbn. repeat split; [assumption | lia | intros; lia].
  - cbv zeta. rewrite postscale_loop_from_S.
    assert (Hpost : 1 <= Z.of_nat (S k) <= 16) by lia.
    destruct (prescale_loop_from_inv _ Hpost 8%nat b ltac:(lia) Hb)
      as (Hrec1 & Hle1 & Hcov1).
    destruct (IH _ ltac:(lia) Hrec1) as (Hrec' & Hle' & Hcov').
    repeat split; [assumption | lia |].
    intros pre post Hpre Hpo Hok.
    destruct (Z.eq_dec post (Z.of_nat (S k))) as [-> | Hlt].
    + specialize (Hcov1 pre ltac:(lia) Hok). lia.
    + apply Hcov'; [lia | lia | assumption].
Qed.

End SearchInvariant.

Lemma search_inv (target : Z) :
  0 <= target <= MAX_TIME_NS ->
  recorded (ticks_of target) (search target) /\
  Z.abs (time_ns_best (search target) - target) <= target /\
  forall pre post, 0 <= pre <= 7 -> 1 <= post <= 16 ->
    examined target pre post = true ->
    Z.abs (time_ns_best (search target) - target)
    <= Z.abs (examined_time target pre post - target).
Proof.
  intros Ht.
  pose proof (postscale_loop_from_inv target (ticks_of target) Ht 16%nat
                search_init) as H.
  specialize (H (le_n 16) (recorded_none _)).
  cbv zeta in H. unfold search_error in H.
  change (time_ns_best search_init) with 0 in H.
  unfold examined, examined_time, examined_period, search.
  destruct H as (Hrec & Hle & Hcov).
  split; [assumption |]. split.
  - clear Hrec Hcov. revert Hle.
    generalize (time_ns_best
       (postscale_loop_from 16 target (ticks_of target) search_init)).
    intros best Hle. change (time_ns_best search_init) with 0 in Hle. lia.
  - intros pre post Hpre Hpost Hok. apply Hcov; assumption.
Qed.

(** ** find_scalers_time *)

Lemma find_scalers_time_above (target : Z) (out : scalers) :
  MAX_TIME_NS < target -> find_scalers_time target out = (0, out).
Proof.
  intros H. unfold find_scalers_time.
  rewrite Z.gtb_ltb. apply Z.ltb_lt in H. now rewrite H.
Qed.

Lemma find_scalers_time_below (target : Z) (out : scalers) :
  target <= MAX_TIME_NS -> find_scalers_time target out = search_result target.
Proof.
  intros H. unfold find_scalers_time.
  rewrite Z.gtb_ltb. apply Z.ltb_ge in H. now rewrite H.
Qed.

Lemma recorded_cases (ticks : Z) (b : search_state) :
  recorded ticks b ->
  b = search_init \/
  exists pre post,
    0 <= pre <= 7 /\ 1 <= post <= 16 /\
    period_ok (period_of (ticks / post) pre) pre = true /\
    b = SearchState (time_of pre (period_of (ticks / post) pre) post)
                    post pre (period_of (ticks / post) pre).
Proof.
  intros [| pre post Hpre Hpost Hok]; [now left | right].
  exists pre, post. tauto.
Qed.

Lemma examined_valid (target pre post : Z) :
  0 <= pre <= 7 -> 1 <= post <= 16 ->
  examined target pre post = true ->
  valid_combination pre post (examined_period target pre post) = true.
Proof.
  intros Hpre Hpost Hok. unfold examined in Hok.
  apply period_ok_bounds in Hok as [Hper Hdeg].
  unfold valid_combination.
  repeat (apply andb_true_intro; split); try (apply Z.leb_le; lia).
  apply negb_true_iff, andb_false_iff.
  destruct Hdeg as [H | H]; [left | right]; apply Z.eqb_neq; lia.
Qed.

(** The result of a search that recorded nothing. *)
Lemma search_result_nothing (target : Z) :
  search target = search_init ->
  search_result target = (0, Scalers 0 255 255).
Proof. intros H. unfold search_result. rewrite H. reflexivity. Qed.

(** The result of a search that recorded a pair. *)
Lemma search_result_candidate (target pre post per : Z) :
  0 <= pre <= 7 -> 1 <= post <= 16 -> 1 <= per <= 255 ->
  search target = SearchState (time_of pre per post) post pre per ->
  search_result target =
  (time_of pre per post, Scalers pre (post - 1) (per - 1)).
Proof.
  intros Hpre Hpost Hper H. unfold search_result. rewrite H.
  cbn [time_ns_best prescale_best postscale_best period_best].
  rewrite (u32_small (per - 1)) by lia.
  rewrite !u8_small by lia. reflexivity.
Qed.

Lemma search_zero_nothing (target : Z) :
  0 <= target <= MAX_TIME_NS ->
  time_ns_best (search target) = 0 -> search target = search_init.
Proof.
  intros Ht Hz. destruct (search_inv target Ht) as (Hrec & _ & _).
  apply recorded_cases in Hrec as [H | (pre & post & Hpre & Hpost & Hok & H)].
  - exact H.
  - rewrite H in Hz. cbn [time_ns_best] in Hz.
    pose proof (candidate_time_range _ _ _ Hpre Hpost Hok). lia.
Qed.

Lemma in_postscale_values (post : Z) :
  1 <= post <= 16 -> In post postscale_values.
Proof.
  intros H. unfold postscale_values.
  assert (C : post = 16 \/ post = 15 \/ post = 14 \/ post = 13 \/ post = 12
              \/ post = 11 \/ post = 10 \/ post = 9 \/ post = 8 \/ post = 7
              \/ post = 6 \/ post = 5 \/ post = 4 \/ post = 3 \/ post = 2
              \/ post = 1) by lia.
  cbn [In]. intuition auto.
Qed.

Lemma in_prescale_values (pre : Z) :
  0 <= pre <= 7 -> In pre prescale_values.
Proof.
  intros H. unfold prescale_values.
  assert (C : pre = 7 \/ pre = 6 \/ pre = 5 \/ pre = 4 \/ pre = 3
              \/ pre = 2 \/ pre = 1 \/ pre = 0) by lia.
  cbn [In]. intuition auto.
Qed.

Lemma none_examined_spec (target pre post : Z) :
  none_examined target = true ->
  0 <= pre <= 7 -> 1 <= post <= 16 -> examined target pre post = false.
Proof.
  intros H Hpre Hpost. unfold none_examined in H.
  rewrite forallb_forall in H.
  specialize (H post (in_postscale_values post Hpost)).
  rewrite forallb_forall in H.
  specialize (H pre (in_prescale_values pre Hpre)).
  now apply negb_true_iff in H.
Qed.

(** C1 (as amended).  For every target up to [MAX_TIME_NS] the returned time
    is at least as close to the target as the back-converted time of every
    combination the search examines (for each postscale 16..1 and prescale
    7..0 the one period implied by the rounded tick count, when it passes the
    guard), and it is either zero or the back-converted time of one of these
    valid combinations. *)
Theorem find_scalers_time_closest_examined (target : Z) (out : scalers) :
  0 <= target <= MAX_TIME_NS ->
  closest_among_examined target (fst (find_scalers_time target out)).
Proof.
  intros Ht. rewrite find_scalers_time_below by lia.
  unfold search_result. cbn [fst].
  destruct (search_inv target Ht) as (Hrec & _ & Hcov).
  split; [exact Hcov |].
  apply recorded_cases in Hrec as [H | (pre & post & Hpre & Hpost & Hok & H)].
  - left. now rewrite H.
  - right. exists pre, post. rewrite H. cbn [time_ns_best].
    repeat split; [now apply examined_valid | exact Hok].
Qed.

Lemma find_scalers_time_closest_examined_witness :
  closest_among_examined 1000000
    (fst (find_scalers_time 1000000 (Scalers 0 0 0))).
Proof.
  apply (find_scalers_time_closest_examined 1000000 (Scalers 0 0 0)).
  rewrite MAX_TIME_NS_value. lia.
Defined.

(** C1 (as stated) fails: for the in-range target 116703 ns the search
    returns 116875 ns, while prescale 0, postscale 15, period 249 is valid
    and back-converts to 116718 ns. *)
Lemma find_scalers_time_not_closest :
  0 <= 116703 <= MAX_TIME_NS
  /\ fst (find_scalers_time 116703 (Scalers 0 0 0)) = 116875
  /\ valid_combination 0 15 249 = true
  /\ time_of 0 249 15 = 116718
  /\ ~ closest_among_all_valid 116703
         (fst (find_scalers_time 116703 (Scalers 0 0 0))).
Proof.
  assert (E1 : fst (find_scalers_time 116703 (Scalers 0 0 0)) = 116875)
    by (vm_compute; reflexivity).
  assert (E2 : time_of 0 249 15 = 116718) by (vm_compute; reflexivity).
  split; [rewrite MAX_TIME_NS_value; lia |].
  split; [exact E1 |]. split; [reflexivity |]. split; [exact E2 |].
  intros H. specialize (H 0 15 249 eq_refl).
  rewrite E1, E2 in H. lia.
Qed.

(** C2 (as amended).  The limit of the guard is [MAX_TIME_NS] = 16,320,000
    ns, the tick period times 2^7 x 255 x 16: every target strictly above it
    makes [find_scalers_time] return zero with the outputs untouched, and
    every target at or below it gets the result of the search. *)
Theorem find_scalers_time_range_guard (target : Z) (out : scalers) :
  1000 * MAX_TIME_NS = PS_PER_TICK * 2 ^ 7 * 255 * 16
  /\ (MAX_TIME_NS < target -> find_scalers_time target out = (0, out))
  /\ (target <= MAX_TIME_NS ->
      find_scalers_time target out = search_result target).
Proof.
  split; [reflexivity |]. split.
  - apply find_scalers_time_above.
  - apply find_scalers_time_below.
Qed.

Lemma find_scalers_time_range_guard_witness :
  find_scalers_time 16320001 (Scalers 1 2 3) = (0, Scalers 1 2 3)
  /\ find_scalers_time 16320000 (Scalers 1 2 3) = search_result 16320000.
Proof.
  split.
  - apply (find_scalers_time_range_guard 16320001 (Scalers 1 2 3)).
    rewrite MAX_TIME_NS_value. lia.
  - apply (find_scalers_time_range_guard 16320000 (Scalers 1 2 3)).
    rewrite MAX_TIME_NS_value. lia.
Defined.

(** C2 (as stated) fails: 16,330,000 ns is below the stated limit, the tick
    period times 2^7 x 256 x 16 = 16,384,000 ns, and the search would reach
    16,320,000 ns for it, but the function returns zero without searching. *)
Lemma find_scalers_time_rejects_below_stated_max :
  stated_max_time_ns = 16384000
  /\ 16330000 <= stated_max_time_ns
  /\ find_scalers_time 16330000 (Scalers 1 2 3) = (0, Scalers 1 2 3)
  /\ search_result 16330000 = (16320000, Scalers 7 15 254)
  /\ find_scalers_time 16330000 (Scalers 1 2 3) <> search_result 16330000.
Proof.
  assert (E1 : find_scalers_time 16330000 (Scalers 1 2 3) = (0, Scalers 1 2 3))
    by (vm_compute; reflexivity).
  assert (E2 : search_result 16330000 = (16320000, Scalers 7 15 254))
    by (vm_compute; reflexivity).
  split; [reflexivity |]. split; [vm_compute; discriminate |].
  split; [exact E1 |]. split; [exact E2 |].
  rewrite E1, E2. discriminate.
Qed.

(** C4 (as amended).  For every in-range target for which the returned time
    is nonzero (the search recorded a valid combination as its best), the
    returned time is the back-conversion of the stored triple, the tick
    period x 2^prescale x (period+1) x (postscale+1) in whole nanoseconds,
    with prescale in 0-7, stored postscale in 0-15 and stored period in
    0-255. *)
Theorem find_scalers_time_back_conversion (target : Z) (out : scalers) :
  0 <= target <= MAX_TIME_NS ->
  fst (find_scalers_time target out) <> 0 ->
  reproduces (fst (find_scalers_time target out))
             (snd (find_scalers_time target out))
  /\ scalers_in_range (snd (find_scalers_time target out)).
Proof.
  intros Ht. rewrite find_scalers_time_below by lia. intros Hnz.
  destruct (search_inv target Ht) as (Hrec & _ & _).
  apply recorded_cases in Hrec as [H | (pre & post & Hpre & Hpost & Hok & H)].
  - exfalso. apply Hnz. unfold search_result. rewrite H. reflexivity.
  - pose proof (period_ok_bounds _ _ Hok) as [Hper _].
    rewrite (search_result_candidate target pre post _ Hpre Hpost Hper H).
    cbn [fst snd].
    destruct (time_of_exact pre _ post Hpre Hper Hpost) as [Hexact _].
    set (per := period_of (ticks_of target / post) pre) in *.
    unfold reproduces, scalers_in_range, back_convert.
    cbn [prescale postscale period].
    rewrite !Z.sub_add. repeat split; try lia.
    + rewrite Hexact, PS_PER_TICK_value.
      pose proof (Z.mul_div_le (3125 * 2 ^ pre * per * post) 100 ltac:(lia)).
      lia.
    + rewrite Hexact, PS_PER_TICK_value.
      pose proof (Z.mul_succ_div_gt (3125 * 2 ^ pre * per * post) 100
                    ltac:(lia)).
      lia.
Qed.

Lemma find_scalers_time_back_conversion_witness :
  reproduces (fst (find_scalers_time 1000000 (Scalers 0 0 0)))
             (snd (find_scalers_time 1000000 (Scalers 0 0 0)))
  /\ scalers_in_range (snd (find_scalers_time 1000000 (Scalers 0 0 0))).
Proof.
  apply (find_scalers_time_back_conversion 1000000 (Scalers 0 0 0)).
  - rewrite MAX_TIME_NS_value. lia.
  - vm_compute. discriminate.
Defined.

(** C4 (as stated) fails: for the in-range target 16 ns the search does come
    upon a valid combination (prescale 1, postscale 1, period 1, 62 ns), but
    62 is not closer to 16 than the initial best 0 is, so nothing is
    recorded: the returned time is 0, the stored triple is (0, 255, 255),
    whose back-conversion is 2,048,000 ns and whose postscale is not in
    0-15. *)
Lemma find_scalers_time_valid_seen_not_recorded :
  0 <= 16 <= MAX_TIME_NS
  /\ examined 16 1 1 = true
  /\ valid_combination 1 1 (examined_period 16 1 1) = true
  /\ examined_time 16 1 1 = 62
  /\ find_scalers_time 16 (Scalers 0 0 0) = (0, Scalers 0 255 255)
  /\ back_convert (Scalers 0 255 255) = 2048000
  /\ ~ (reproduces (fst (find_scalers_time 16 (Scalers 0 0 0)))
                   (snd (find_scalers_time 16 (Scalers 0 0 0)))
        /\ scalers_in_range (snd (find_scalers_time 16 (Scalers 0 0 0)))).
Proof.
  assert (E : find_scalers_time 16 (Scalers 0 0 0) = (0, Scalers 0 255 255))
    by (vm_compute; reflexivity).
  split; [rewrite MAX_TIME_NS_value; lia |].
  repeat (split; [vm_compute; reflexivity |]).
  rewrite E. cbn [fst snd]. intros [_ (_ & H & _)].
  cbn [postscale] in H. lia.
Qed.

(** C5 (as amended).  Whenever no (postscale, prescale) pair of the search
    passes the guard for an in-range target, the returned time is zero and
    the outputs are prescale 0, stored postscale 255 and stored period 255:
    the count-minus-one encoding is applied to the zero-initialised best. *)
Theorem find_scalers_time_nothing_found (target : Z) (out : scalers) :
  0 <= target <= MAX_TIME_NS ->
  none_examined target = true ->
  find_scalers_time target out = (0, Scalers 0 255 255).
Proof.
  intros Ht Hnone. rewrite find_scalers_time_below by lia.
  apply search_result_nothing.
  destruct (search_inv target Ht) as (Hrec & _ & _).
  apply recorded_cases in Hrec as [H | (pre & post & Hpre & Hpost & Hok & H)].
  - exact H.
  - pose proof (none_examined_spec target pre post Hnone Hpre Hpost) as Hno.
    unfold examined, examined_period in Hno. congruence.
Qed.

Lemma find_scalers_time_nothing_found_witness :
  find_scalers_time 0 (Scalers 1 2 3) = (0, Scalers 0 255 255).
Proof.
  apply (find_scalers_time_nothing_found 0 (Scalers 1 2 3)).
  - rewrite MAX_TIME_NS_value. lia.
  - vm_compute. reflexivity.
Defined.

(** C5 (as stated) fails: for the in-range target 0 ns no pair passes the
    guard, the returned time is zero, and the stored postscale and period are
    255, not zero. *)
Lemma find_scalers_time_nothing_found_not_all_zero :
  0 <= 0 <= MAX_TIME_NS
  /\ none_examined 0 = true
  /\ find_scalers_time 0 (Scalers 0 0 0) = (0, Scalers 0 255 255)
  /\ snd (find_scalers_time 0 (Scalers 0 0 0)) <> Scalers 0 0 0.
Proof.
  split; [rewrite MAX_TIME_NS_value; lia |].
  repeat (split; [vm_compute; reflexivity |]).
  vm_compute. discriminate.
Qed.

(** ** set_strobe_timing *)

Lemma time_of_u32 (pre per post : Z) : 0 <= time_of pre per post < 2 ^ 32.
Proof.
  unfold time_of.
  match goal with |- 0 <= u32 ?x / _ < _ =>
    assert (H : 0 <= u32 x < 2 ^ 32) by (apply Z.mod_pos_bound; reflexivity);
    generalize dependent (u32 x)
  end.
  intros v Hv. change (1000 / TIME_SCALING) with 100. split.
  - apply Z.div_pos; lia.
  - apply Z.div_lt_upper_bound; lia.
Qed.

Lemma prescale_loop_from_u32 (target rem post : Z) :
  forall (n : nat) (b : search_state),
    0 <= time_ns_best b < 2 ^ 32 ->
    0 <= time_ns_best (prescale_loop_from n target rem post b) < 2 ^ 32.
Proof.
  induction n as [| k IH]; intros b Hb; [exact Hb |].
  cbn [prescale_loop_from]. cbv zeta.
  destruct (period_ok _ _); [| now apply IH].
  destruct (_ <? _); destruct (_ =? _);
    try apply IH; cbn [time_ns_best]; auto using time_of_u32.
Qed.

Lemma postscale_loop_from_u32 (target ticks : Z) :
  forall (n : nat) (b : search_state),
    0 <= time_ns_best b < 2 ^ 32 ->
    0 <= time_ns_best (postscale_loop_from n target ticks b) < 2 ^ 32.
Proof.
  induction n as [| k IH]; intros b Hb; [exact Hb |].
  cbn [postscale_loop_from]. apply IH.
  now apply prescale_loop_from_u32.
Qed.

(** The returned time is a [uint32_t], whatever the target. *)
Lemma find_scalers_time_u32 (target : Z) (out : scalers) :
  0 <= fst (find_scalers_time target out) < 2 ^ 32.
Proof.
  unfold find_scalers_time. destruct (target >? MAX_TIME_NS); [cbn; lia |].
  unfold search_result. cbn [fst]. unfold search.
  apply postscale_loop_from_u32. cbn. lia.
Qed.

Lemma find_scalers_time_nonneg (target : Z) (out : scalers) :
  0 <= fst (find_scalers_time target out).
Proof. apply find_scalers_time_u32. Qed.

Lemma set_strobe_timing_unfold (stack : timing_frame) (w d : Z) (m : machine) :
  set_strobe_timing stack w d m =
  let wr := find_scalers_time w (wait_scalers stack) in
  let dr := find_scalers_time d (duration_scalers stack) in
  if (fst wr >? 0) && (fst dr >? 0) then
    (fst wr, fst dr,
     snd (run timing_update
            (TimingFrame (snd wr) (snd dr) (t4con_copy stack), m)))
  else (fst wr, fst dr, m).
Proof.
  unfold set_strobe_timing.
  destruct (find_scalers_time w (wait_scalers stack)) as [wns ws].
  destruct (find_scalers_time d (duration_scalers stack)) as [dns ds].
  reflexivity.
Qed.

Lemma run_timing_update (f : timing_frame) (m : machine) :
  dividers (snd (run timing_update (f, m))) =
  (period (wait_scalers f), period (duration_scalers f),
   con_value (T2CON m) (wait_scalers f),
   con_value (T4CON m) (duration_scalers f)).
Proof. reflexivity. Qed.

Lemma set_strobe_timing_guard (stack : timing_frame) (w d : Z) (m : machine) :
  let wr := find_scalers_time w (wait_scalers stack) in
  let dr := find_scalers_time d (duration_scalers stack) in
  let r := set_strobe_timing stack w d m in
  fst (fst r) = fst wr /\ snd (fst r) = fst dr
  /\ (fst wr = 0 \/ fst dr = 0 -> snd r = m)
  /\ (fst wr <> 0 -> fst dr <> 0 ->
      snd r =
      snd (run timing_update
             (TimingFrame (snd wr) (snd dr) (t4con_copy stack), m))).
Proof.
  cbv zeta. rewrite set_strobe_timing_unfold. cbv zeta.
  pose proof (find_scalers_time_nonneg w (wait_scalers stack)) as Hw.
  pose proof (find_scalers_time_nonneg d (duration_scalers stack)) as Hd.
  destruct (find_scalers_time w (wait_scalers stack)) as [wns ws].
  destruct (find_scalers_time d (duration_scalers stack)) as [dns ds].
  cbn [fst snd] in *. rewrite !Z.gtb_ltb.
  destruct (Z.ltb_spec 0 wns) as [Hwp | Hwz];
    destruct (Z.ltb_spec 0 dns) as [Hdp | Hdz]; cbn [andb fst snd];
    repeat split; intros; try reflexivity; try lia.
Qed.

(** C3.  [set_strobe_timing] is all-or-nothing: the achieved times it hands
    back are those of the two solves; when either is zero the machine is left
    exactly as it was, so every divider register of both timers keeps its
    pre-call value; a machine that differs after the call therefore had two
    nonzero solves; and when both are nonzero PR2, PR4, T2CON and T4CON
    receive the new divider values. *)
Theorem set_strobe_timing_all_or_nothing
    (stack : timing_frame) (w d : Z) (m : machine) :
  let wr := find_scalers_time w (wait_scalers stack) in
  let dr := find_scalers_time d (duration_scalers stack) in
  let r := set_strobe_timing stack w d m in
  fst (fst r) = fst wr /\ snd (fst r) = fst dr
  /\ (fst wr = 0 \/ fst dr = 0 -> snd r = m)
  /\ (snd r <> m -> fst wr <> 0 /\ fst dr <> 0)
  /\ (fst wr <> 0 -> fst dr <> 0 ->
      dividers (snd r) =
      (period (snd wr), period (snd dr),
       con_value (T2CON m) (snd wr), con_value (T4CON m) (snd dr))).
Proof.
  cbv zeta.
  destruct (set_strobe_timing_guard stack w d m) as (Hw & Hd & Hzero & Hboth).
  cbv zeta in Hzero, Hboth.
  split; [exact Hw |]. split; [exact Hd |]. split; [exact Hzero |]. split.
  - intros Hchanged. split; intros Hz; apply Hchanged, Hzero; tauto.
  - intros Hwn Hdn. rewrite (Hboth Hwn Hdn). apply run_timing_update.
Qed.

Lemma set_strobe_timing_all_or_nothing_witness :
  snd (set_strobe_timing (TimingFrame (Scalers 9 9 9) (Scalers 9 9 9) 9)
         1000000 20000000 armed_machine) = armed_machine.
Proof.
  apply (set_strobe_timing_all_or_nothing
           (TimingFrame (Scalers 9 9 9) (Scalers 9 9 9) 9)
           1000000 20000000 armed_machine).
  right. vm_compute. reflexivity.
Defined.

(** ** hardware_trigger_strobe and the interrupt handler *)

Lemma ON_bit_with_ON_bit_1 (con : Z) : ON_bit (with_ON_bit 1 con) = true.
Proof.
  unfold ON_bit, with_ON_bit. rewrite Z.lor_spec.
  change (Z.shiftl (Z.land 1 1) 7) with 128.
  change (Z.testbit 128 7) with true. apply orb_true_r.
Qed.

(** C6.  For every gate edge the handler takes: gate capture is re-armed
    ([T1GGO] is set again); when [strobe_enabled] is nonzero and
    [trigger_mode] is 1 the edge resets the wait timer once and starts it
    once (one write of 0 to [TMR2], one write of 1 to [T2ON]); otherwise the
    edge writes neither [TMR2] nor [T2CON] and only re-arms the capture. *)
Theorem gate_edge_starts_wait_timer_once
    (PIN_MANAGER_IOC SPI1_ISR : machine -> machine) (m : machine) :
  gate_edge_taken m = true ->
  let m' := INTERRUPT_InterruptManager PIN_MANAGER_IOC SPI1_ISR m in
  T1GGO m' = true
  /\ strobe_enabled m' = strobe_enabled m
  /\ trigger_mode m' = trigger_mode m
  /\ if trigger_armed m then
       trace m' = trace m ++ [Ev_TMR2_write 0; Ev_T2ON_write 1;
                              Ev_StartSinglePulseAcquisition;
                              Ev_StartSinglePulseAcquisition]
       /\ TMR2 m' = 0 /\ ON_bit (T2CON m') = true
     else
       trace m' = trace m ++ [Ev_StartSinglePulseAcquisition]
       /\ TMR2 m' = TMR2 m /\ T2CON m' = T2CON m.
Proof.
  unfold gate_edge_taken. intros H.
  repeat (apply andb_prop in H as [H ?]).
  apply negb_true_iff in H.
  match goal with Hg : negb (T1GGO m) = true |- _ =>
    apply negb_true_iff in Hg; rename Hg into Hgo end.
  cbv zeta. unfold INTERRUPT_InterruptManager.
  rewrite H.
  repeat match goal with Hb : _ = true |- _ => rewrite Hb; clear Hb end.
  cbn [andb]. cbv zeta.
  replace (T1GGO (upd_TMR1IF false m)) with false by (symmetry; exact Hgo).
  cbn [negb].
  unfold hardware_trigger_strobe, trigger_armed.
  change (strobe_enabled (upd_TMR1IF false m)) with (strobe_enabled m).
  change (trigger_mode (upd_TMR1IF false m)) with (trigger_mode m).
  destruct (negb (strobe_enabled m =? 0) && (trigger_mode m =? 1)).
  - repeat split; try reflexivity.
    + cbn. rewrite <- !app_assoc. reflexivity.
    + apply ON_bit_with_ON_bit_1.
  - repeat split; reflexivity.
Qed.

Lemma gate_edge_starts_wait_timer_once_witness :
  let m := raise_gate_flag armed_machine in
  let m' := INTERRUPT_InterruptManager (fun m => m) (fun m => m) m in
  T1GGO m' = true
  /\ strobe_enabled m' = strobe_enabled m
  /\ trigger_mode m' = trigger_mode m
  /\ if trigger_armed m then
       trace m' = trace m ++ [Ev_TMR2_write 0; Ev_T2ON_write 1;
                              Ev_StartSinglePulseAcquisition;
                              Ev_StartSinglePulseAcquisition]
       /\ TMR2 m' = 0 /\ ON_bit (T2CON m') = true
     else
       trace m' = trace m ++ [Ev_StartSinglePulseAcquisition]
       /\ TMR2 m' = TMR2 m /\ T2CON m' = T2CON m.
Proof.
  apply (gate_edge_starts_wait_timer_once (fun m => m) (fun m => m)
           (raise_gate_flag armed_machine)).
  vm_compute. reflexivity.
Defined.

(** ** set_trigger_mode *)

(** C7.  For every argument and every machine, [set_trigger_mode] sets
    [trigger_mode] to 1 exactly for the argument 1; entering hardware mode
    enables the gate interrupt and clears its flag; entering software mode
    leaves the gate interrupt disabled, whatever the wait timer is doing; and
    [strobe_enabled] and the timers are left as they were. *)
Theorem set_trigger_mode_effect (mode : Z) (m : machine) :
  let m' := set_trigger_mode mode m in
  trigger_mode m' = (if mode =? 1 then 1 else 0)
  /\ TMR1IE m' = (mode =? 1)
  /\ TMR1IF m' = (if mode =? 1 then false else TMR1IF m)
  /\ strobe_enabled m' = strobe_enabled m
  /\ dividers m' = dividers m /\ TMR2 m' = TMR2 m /\ trace m' = trace m.
Proof.
  cbv zeta. unfold set_trigger_mode. cbv zeta.
  change (trigger_mode (upd_trigger_mode (if mode =? 1 then 1 else 0) m))
    with (if mode =? 1 then 1 else 0).
  destruct (mode =? 1); cbn [Z.eqb Pos.eqb]; repeat split; reflexivity.
Qed.

(** The foreground poll re-arms the capture as well, and touches neither the
    wait timer nor its log entries. *)
Lemma poll_gate_rearms (m : machine) :
  T1GGO (poll_gate m) = true
  /\ TMR2 (poll_gate m) = TMR2 m /\ T2CON (poll_gate m) = T2CON m.
Proof.
  unfold poll_gate. destruct (T1GGO m) eqn:H; cbn [negb]; auto.
Qed.

(** ** Command dispatch *)

Section Dispatch.

Variable stack : timing_frame.
Variables ERR_OK ERR_PACKET_INVALID : Z.

(** C8.  For every recognised command whose payload size differs from the
    expected one (1 byte for SET_STROBE_ENABLE, SET_STROBE_HOLD and
    SET_TRIGGER_MODE, 8 for SET_STROBE_TIMING, 0 for GET_CAM_READ_TIME) the
    dispatcher answers with the single status byte ERR_PACKET_INVALID and
    leaves the whole machine (trigger mode, enable state, hold, timer
    registers, camera read time, return buffer) as it was. *)
Theorem dispatch_size_mismatch (p : packet) (m : machine) (n : Z) :
  expected_size (packet_type p) = Some n ->
  packet_data_size p <> n ->
  dispatch stack ERR_OK ERR_PACKET_INVALID p m =
  (m, Some (Response (packet_type p) [u8 ERR_PACKET_INVALID])).
Proof.
  unfold expected_size, dispatch, status_only.
  intros Hexp Hsize.
  destruct (Z.eqb_spec (packet_type p) 0) as [H0 | _].
  { rewrite H0 in Hexp. cbn in Hexp. discriminate. }
  repeat match type of Hexp with
  | (if ?c then _ else _) = _ =>
      destruct c;
      [ injection Hexp as <-;
        apply Z.eqb_neq in Hsize; rewrite Hsize; reflexivity | ]
  end.
  discriminate.
Qed.

(** C10.  For every SET_STROBE_TIMING request with an 8-byte payload the
    response is nine bytes: the status ERR_OK followed by the two achieved
    times, each the result of its solve; the status is ERR_OK also when a
    target is unachievable, in which case the achieved time sent is zero and
    the divider registers of both timers are the ones from before the
    request. *)
Theorem dispatch_timing_status_ok (p : packet) (m : machine) :
  packet_type p = PACKET_TYPE_SET_STROBE_TIMING ->
  packet_data_size p = 8 ->
  let wait_ns :=
    fst (find_scalers_time (wait_request p) (wait_scalers stack)) in
  let duration_ns :=
    fst (find_scalers_time (duration_request p) (duration_scalers stack)) in
  let r := dispatch stack ERR_OK ERR_PACKET_INVALID p m in
  snd r =
  Some (Response PACKET_TYPE_SET_STROBE_TIMING
          (u8 ERR_OK :: le_bytes32 wait_ns ++ le_bytes32 duration_ns))
  /\ (wait_ns = 0 \/ duration_ns = 0 -> dividers (fst r) = dividers m)
  /\ (dividers (fst r) <> dividers m -> wait_ns <> 0 /\ duration_ns <> 0).
Proof.
  intros Hty Hsize. cbv zeta.
  pose proof (set_strobe_timing_guard stack (wait_request p)
                (duration_request p) m) as H.
  cbv zeta in H. destruct H as (Hw & Hd & Hzero & _).
  unfold dispatch. rewrite Hty, Hsize.
  cbn [Z.eqb Pos.eqb PACKET_TYPE_SET_STROBE_ENABLE
         PACKET_TYPE_SET_STROBE_TIMING].
  fold (wait_request p) (duration_request p).
  destruct (set_strobe_timing stack (wait_request p) (duration_request p) m)
    as [[wns dns] m1].
  cbn [fst snd] in *. subst wns dns.
  assert (Hkeep :
    fst (find_scalers_time (wait_request p) (wait_scalers stack)) = 0 \/
    fst (find_scalers_time (duration_request p) (duration_scalers stack)) = 0
    -> dividers
         (upd_return_buf
            (u8 ERR_OK
             :: le_bytes32
                  (fst (find_scalers_time (wait_request p)
                          (wait_scalers stack)))
             ++ le_bytes32
                  (fst (find_scalers_time (duration_request p)
                          (duration_scalers stack)))) m1)
       = dividers m).
  { intros Hz. rewrite (Hzero Hz). reflexivity. }
  split; [reflexivity |]. split; [exact Hkeep |].
  intros Hchanged.
  split; intros Hz; apply Hchanged, Hkeep; [now left | now right].
Qed.

End Dispatch.

(** The host reads the two achieved times back from bytes 1-4 and 5-8 of the
    timing response. *)
Lemma timing_response_decodes (status w d : Z) :
  0 <= w < 2 ^ 32 -> 0 <= d < 2 ^ 32 ->
  let bytes := status :: le_bytes32 w ++ le_bytes32 d in
  le_word32 (nth 1 bytes 0) (nth 2 bytes 0) (nth 3 bytes 0) (nth 4 bytes 0) = w
  /\ le_word32 (nth 5 bytes 0) (nth 6 bytes 0) (nth 7 bytes 0) (nth 8 bytes 0)
     = d.
Proof.
  intros Hw Hd. cbv zeta. split.
  - exact (le_word32_le_bytes32 w Hw).
  - exact (le_word32_le_bytes32 d Hd).
Qed.

Lemma dispatch_size_mismatch_witness :
  dispatch (TimingFrame (Scalers 9 9 9) (Scalers 9 9 9) 9) 0 1
    (Packet PACKET_TYPE_SET_STROBE_TIMING [64; 66; 15; 0; 32; 161; 7] 7)
    armed_machine
  = (armed_machine, Some (Response PACKET_TYPE_SET_STROBE_TIMING [u8 1])).
Proof.
  apply (dispatch_size_mismatch
           (TimingFrame (Scalers 9 9 9) (Scalers 9 9 9) 9) 0 1
           (Packet PACKET_TYPE_SET_STROBE_TIMING [64; 66; 15; 0; 32; 161; 7] 7)
           armed_machine 8).
  - reflexivity.
  - cbn. lia.
Defined.

(** A request for a wait of 1,000,000 ns and a duration of 20,000,000 ns,
    which is above [MAX_TIME_NS]. *)
Lemma dispatch_timing_status_ok_witness :
  let stack := TimingFrame (Scalers 9 9 9) (Scalers 9 9 9) 9 in
  let p := Packet PACKET_TYPE_SET_STROBE_TIMING
             [64; 66; 15; 0; 0; 45; 49; 1] 8 in
  snd (dispatch stack 0 1 p armed_machine) =
  Some (Response PACKET_TYPE_SET_STROBE_TIMING
          [0; 64; 66; 15; 0; 0; 0; 0; 0])
  /\ dividers (fst (dispatch stack 0 1 p armed_machine))
     = dividers armed_machine.
Proof.
  cbv zeta.
  destruct (dispatch_timing_status_ok
              (TimingFrame (Scalers 9 9 9) (Scalers 9 9 9) 9) 0 1
              (Packet PACKET_TYPE_SET_STROBE_TIMING
                 [64; 66; 15; 0; 0; 45; 49; 1] 8)
              armed_machine eq_refl eq_refl) as (Hresp & Hkeep & _).
  split.
  - rewrite Hresp. vm_compute. reflexivity.
  - apply Hkeep. right. vm_compute. reflexivity.
Defined.

(** ** The timing update and the gate interrupt *)

Lemma firstn_timing_update_cases (k : nat) :
  (6 <= k)%nat -> firstn k timing_update = timing_update.
Proof. intros H. apply firstn_all2. exact H. Qed.

(** C9 (as amended).  [set_strobe_timing] does not mask the gate interrupt:
    at every point of the update the gate interrupt enable and the peripheral
    interrupt enable are what they were before the call, so that, when both
    are on, a gate edge arriving at that point runs the interrupt handler; the
    update only stops the duration timer, whose control register reads zero
    from the second statement until the last one rewrites it. *)
Theorem set_strobe_timing_does_not_mask_gate_interrupt
    (PIN_MANAGER_IOC SPI1_ISR : machine -> machine)
    (f : timing_frame) (m : machine) (k : nat) :
  let m' := during_update k f m in
  TMR1IE m' = TMR1IE m /\ PEIE m' = PEIE m
  /\ ((2 <= k <= 5)%nat -> T4CON m' = 0)
  /\ (PEIE m = true -> TMR1IE m = true ->
      gate_edge PIN_MANAGER_IOC SPI1_ISR m' =
      INTERRUPT_InterruptManager PIN_MANAGER_IOC SPI1_ISR
        (raise_gate_flag m')).
Proof.
  cbv zeta.
  assert (Hie : TMR1IE (during_update k f m) = TMR1IE m
                /\ PEIE (during_update k f m) = PEIE m
                /\ ((2 <= k <= 5)%nat -> T4CON (during_update k f m) = 0)).
  { unfold during_update.
    destruct (Nat.le_gt_cases 6 k) as [Hbig | Hsmall].
    - rewrite firstn_timing_update_cases by exact Hbig.
      repeat split; try reflexivity. intros Hk. lia.
    - destruct k as [| [| [| [| [| [| k]]]]]]; try lia;
        repeat split; try reflexivity; intros Hk; lia. }
  destruct Hie as (H1 & H2 & H3).
  repeat split; try assumption.
  intros Hpeie Hie. unfold gate_edge. cbv zeta.
  fold (raise_gate_flag (during_update k f m)).
  change (PEIE (raise_gate_flag (during_update k f m)))
    with (PEIE (during_update k f m)).
  change (TMR1IE (raise_gate_flag (during_update k f m)))
    with (TMR1IE (during_update k f m)).
  rewrite H1, H2, Hpeie, Hie. reflexivity.
Qed.

Lemma set_strobe_timing_does_not_mask_gate_interrupt_witness :
  let f := TimingFrame (Scalers 4 15 124) (Scalers 3 15 124) 0 in
  T4CON (during_update 3 f armed_machine) = 0
  /\ gate_edge (fun m => m) (fun m => m) (during_update 3 f armed_machine) =
     INTERRUPT_InterruptManager (fun m => m) (fun m => m)
       (raise_gate_flag (during_update 3 f armed_machine)).
Proof.
  cbv zeta.
  destruct (set_strobe_timing_does_not_mask_gate_interrupt
              (fun m => m) (fun m => m)
              (TimingFrame (Scalers 4 15 124) (Scalers 3 15 124) 0)
              armed_machine 3) as (_ & _ & Hcon & Hedge).
  split.
  - apply Hcon. lia.
  - apply Hedge; reflexivity.
Defined.

(** C9 (as stated) fails.  On the machine in hardware trigger mode with the
    strobe enabled, an update to a wait of 1,000,000 ns and a duration of
    500,000 ns keeps the gate interrupt enabled throughout, and the execution
    in which a gate edge arrives after [PR2 = wait_period] and before the
    write of [T2CON] is one of its executions: the handler starts the wait
    timer with the new period (124) and the old prescale and postscale
    bits. *)
Lemma gate_edge_inside_timing_update :
  let f := TimingFrame (Scalers 4 15 124) (Scalers 3 15 124) 0 in
  let edge := gate_edge (fun m => m) (fun m => m) in
  find_scalers_time 1000000 (Scalers 0 0 0) = (1000000, Scalers 4 15 124)
  /\ find_scalers_time 500000 (Scalers 0 0 0) = (500000, Scalers 3 15 124)
  /\ TMR1IE armed_machine = true
  /\ ~ gate_interrupt_masked_during_update f armed_machine
  /\ interleaved (fun m => m) (fun m => m) timing_update (f, armed_machine)
       (run (skipn 3 timing_update)
            (fst (run (firstn 3 timing_update) (f, armed_machine)),
             edge (during_update 3 f armed_machine)))
  /\ PR2 (edge (during_update 3 f armed_machine)) = 124
  /\ T2CON (edge (during_update 3 f armed_machine)) = 128
  /\ T2CON (snd (run timing_update (f, armed_machine))) = 79
  /\ trace (edge (during_update 3 f armed_machine)) =
     trace armed_machine ++ [Ev_TMR2_write 0; Ev_T2ON_write 1;
                             Ev_StartSinglePulseAcquisition;
                             Ev_StartSinglePulseAcquisition].
Proof.
  cbv zeta.
  split; [vm_compute; reflexivity |].
  split; [vm_compute; reflexivity |].
  split; [reflexivity |].
  split.
  { intros H. specialize (H 3%nat ltac:(lia)). vm_compute in H.
    discriminate. }
  split.
  { unfold timing_update. do 3 apply interleaved_stmt.
    apply interleaved_edge. do 3 apply interleaved_stmt.
    match goal with
    | |- interleaved _ _ _ ?a ?b =>
        replace b with a by (vm_compute; reflexivity)
    end.
    apply interleaved_done. }
  repeat split; vm_compute; reflexivity.
Qed.

(** * Further properties *)

Lemma ticks_of_exact (target : Z) :
  0 <= target <= MAX_TIME_NS ->
  ticks_of target = (100 * target + 1562) / 3125.
Proof.
  intros H. rewrite MAX_TIME_NS_value in H. unfold ticks_of.
  change (1000 / TIME_SCALING) with 100.
  change (Z.shiftr PS_PER_TICK 1 / TIME_SCALING) with 1562.
  change (PS_PER_TICK / TIME_SCALING) with 3125.
  rewrite (u32_small (target * 100)) by lia.
  rewrite u32_small by lia.
  f_equal. lia.
Qed.

Lemma period_ok_intro (p pre : Z) :
  1 <= p <= 255 -> 1 < p \/ 0 < pre -> period_ok p pre = true.
Proof.
  intros Hp Hd. unfold period_ok. rewrite !Z.gtb_ltb.
  apply andb_true_intro; split; [apply andb_true_intro; split |].
  - apply Z.ltb_lt; lia.
  - apply Z.leb_le; lia.
  - apply orb_true_iff. destruct Hd; [left | right]; apply Z.ltb_lt; lia.
Qed.

Lemma period_of_rounded (rem pre : Z) :
  1 <= pre -> 0 <= rem < 2 ^ 31 ->
  period_of rem pre = (rem / 2 ^ (pre - 1) + 1) / 2.
Proof.
  intros Hpre Hrem. unfold period_of.
  destruct (Z.eqb_spec pre 0) as [-> | _]; [lia |].
  rewrite !Z.shiftr_div_pow2 by lia. change (2 ^ 1) with 2.
  assert (0 <= rem / 2 ^ (pre - 1) <= rem).
  { split; [apply Z.div_pos; lia |].
    apply Z.div_le_upper_bound; [lia |].
    pose proof (Z.pow_pos_nonneg 2 (pre - 1) ltac:(lia) ltac:(lia)). nia. }
  rewrite u32_small by lia. reflexivity.
Qed.


Lemma period_of_0 (rem : Z) : period_of rem 0 = rem.
Proof. reflexivity. Qed.

(** One case of the accuracy argument: the pair (pre, post) with pre >= 1. *)
Ltac accuracy_case pre post :=
  match goal with
  | Ht : 0 <= ?target <= 16320000, Ek : ?k = (100 * ?target + 1562) / 3125
    |- _ =>
      exists pre, post;
      unfold examined, examined_time, examined_period;
      rewrite (ticks_of_exact target) by (rewrite MAX_TIME_NS_value; exact Ht);
      rewrite <- Ek;
      let Hrem := fresh "Hrem" in
      assert (Hrem : 0 <= k / post < 2 ^ 31)
        by (clear Ek; Z.div_mod_to_equations; lia);
      rewrite (period_of_rounded (k / post) pre) by lia;
      let P := eval cbv in (2 ^ (pre - 1)) in
      change (2 ^ (pre - 1)) with P;
      let p := fresh "p" in let Ep := fresh "Ep" in
      remember ((k / post / P + 1) / 2) as p eqn:Ep;
      let Hp := fresh "Hp" in
      assert (Hp : 1 <= p <= 255) by (clear Ek; Z.div_mod_to_equations; lia);
      split; [lia |]; split; [lia |];
      split; [apply period_ok_intro; [lia | right; lia] |];
      destruct (time_of_exact pre p post ltac:(lia) Hp ltac:(lia)) as [-> _];
      let Q := eval cbv in (2 ^ pre) in
      change (2 ^ pre) with Q;
      Z.div_mod_to_equations; lia
  end.

Lemma accurate_candidate (target : Z) :
  32 <= target <= MAX_TIME_NS ->
  exists pre post,
    0 <= pre <= 7 /\ 1 <= post <= 16 /\
    examined target pre post = true /\
    Z.abs (examined_time target pre post - target) <= target / 256 + 30.
Proof.
  intros Ht'. assert (Ht : 0 <= target <= 16320000)
    by (rewrite MAX_TIME_NS_value in Ht'; lia).
  remember ((100 * target + 1562) / 3125) as k eqn:Ek.
  assert (Hk : 1 <= k <= 522240) by (Z.div_mod_to_equations; lia).
  assert (C : k = 1 \/ 2 <= k <= 255 \/ 256 <= k <= 510 \/ 511 <= k <= 1021
              \/ 1022 <= k <= 2043 \/ 2044 <= k <= 4087 \/ 4088 <= k <= 8175
              \/ 8176 <= k <= 16351 \/ 16352 <= k <= 32703
              \/ 32704 <= k <= 65407 \/ 65408 <= k <= 130815
              \/ 130816 <= k <= 261631 \/ 261632 <= k <= 522240) by lia.
  destruct C as [C | [C | [C | [C | [C | [C | [C | [C | [C | [C | [C | [C | C]]]]]]]]]]]].
  - accuracy_case 1 1.
  - exists 0, 1. unfold examined, examined_time, examined_period.
    rewrite (ticks_of_exact target) by (rewrite MAX_TIME_NS_value; exact Ht).
    rewrite <- Ek. rewrite Z.div_1_r, period_of_0.
    split; [lia |]. split; [lia |].
    split; [apply period_ok_intro; lia |].
    destruct (time_of_exact 0 k 1 ltac:(lia) ltac:(lia) ltac:(lia)) as [-> _].
    change (2 ^ 0) with 1. Z.div_mod_to_equations. lia.
  - accuracy_case 1 1.
  - accuracy_case 2 1.
  - accuracy_case 3 1.
  - accuracy_case 4 1.
  - accuracy_case 5 1.
  - accuracy_case 6 1.
  - accuracy_case 7 1.
  - accuracy_case 4 16.
  - accuracy_case 5 16.
  - accuracy_case 6 16.
  - accuracy_case 7 16.
Qed.

Lemma valid_combination_bounds (pre post per : Z) :
  valid_combination pre post per = true ->
  0 <= pre <= 7 /\ 1 <= post <= 16 /\ 1 <= per <= 255 /\ (1 < per \/ 0 < pre).
Proof.
  unfold valid_combination. intros H.
  repeat (apply andb_prop in H as [H ?]).
  repeat match goal with
  | Hb : (_ <=? _) = true |- _ => apply Z.leb_le in Hb
  end.
  match goal with Hn : negb _ = true |- _ =>
    apply negb_true_iff, andb_false_iff in Hn;
    destruct Hn as [Hn | Hn]; apply Z.eqb_neq in Hn end; lia.
Qed.

Ltac eval_pow2 :=
  repeat match goal with
  | |- context [2 ^ ?c] =>
      let v := eval vm_compute in (2 ^ c) in change (2 ^ c) with v
  end.

Lemma period_of_scaled (pre per : Z) :
  0 <= pre <= 7 -> 1 <= per <= 255 -> period_of (2 ^ pre * per) pre = per.
Proof.
  intros Hpre Hper.
  assert (C : pre = 0 \/ pre = 1 \/ pre = 2 \/ pre = 3 \/ pre = 4 \/ pre = 5
              \/ pre = 6 \/ pre = 7) by lia.
  destruct C as [-> | C].
  - rewrite period_of_0. eval_pow2. lia.
  - rewrite period_of_rounded.
    + repeat (destruct C as [-> | C]); try subst pre; eval_pow2;
        Z.div_mod_to_equations; lia.
    + lia.
    + assert (1 <= 2 ^ pre <= 128).
      { split; [change 1 with (2 ^ 0) | change 128 with (2 ^ 7)];
          apply Z.pow_le_mono_r; lia. }
      change (2 ^ 31) with 2147483648. nia.
Qed.

Lemma reachable_time_fixed (pre post per : Z) :
  valid_combination pre post per = true ->
  0 <= time_of pre per post <= MAX_TIME_NS /\
  time_ns_best (search (time_of pre per post)) = time_of pre per post.
Proof.
  intros Hv. apply valid_combination_bounds in Hv as (Hpre & Hpost & Hper & Hdeg).
  destruct (time_of_exact pre per post Hpre Hper Hpost) as [Hexact Hrange].
  set (t := time_of pre per post) in *.
  assert (Ht : 0 <= t <= MAX_TIME_NS) by lia.
  split; [exact Ht |].
  assert (Hpow : 1 <= 2 ^ pre <= 128).
  { split; [change 1 with (2 ^ 0) | change 128 with (2 ^ 7)];
      apply Z.pow_le_mono_r; lia. }
  assert (Hticks : ticks_of t = 2 ^ pre * per * post).
  { rewrite ticks_of_exact by exact Ht. rewrite Hexact.
    remember (2 ^ pre * per * post) as N eqn:EN.
    replace (3125 * 2 ^ pre * per * post) with (3125 * N) by (subst N; ring).
    assert (0 <= N) by nia. clear EN.
    Z.div_mod_to_equations. lia. }
  assert (Hperiod : examined_period t pre post = per).
  { unfold examined_period. rewrite Hticks, Z.div_mul by lia.
    now apply period_of_scaled. }
  destruct (search_inv t Ht) as (_ & _ & Hcov).
  specialize (Hcov pre post Hpre Hpost).
  unfold examined, examined_time in Hcov. rewrite Hperiod in Hcov.
  fold t in Hcov. rewrite Z.sub_diag in Hcov.
  specialize (Hcov (period_ok_intro per pre Hper Hdeg)).
  revert Hcov. generalize (time_ns_best (search t)). intros b Hb. lia.
Qed.

Lemma search_result_small (n : nat) :
  (n < 32)%nat -> search_result (Z.of_nat n) = (0, Scalers 0 255 255).
Proof.
  intros H.
  do 32 (destruct n as [| n]; [vm_compute; reflexivity |]). lia.
Qed.

Lemma search_accuracy (target : Z) :
  32 <= target <= MAX_TIME_NS ->
  Z.abs (time_ns_best (search target) - target) <= target / 256 + 30.
Proof.
  intros Ht.
  destruct (accurate_candidate target Ht)
    as (pre & post & Hpre & Hpost & Hex & Hacc).
  destruct (search_inv target ltac:(lia)) as (_ & _ & Hcov).
  specialize (Hcov pre post Hpre Hpost Hex).
  revert Hcov. generalize (time_ns_best (search target)). intros b Hb. lia.
Qed.

Lemma candidate_time_at_least_62 (pre post per : Z) :
  0 <= pre <= 7 -> 1 <= post <= 16 -> period_ok per pre = true ->
  62 <= time_of pre per post.
Proof.
  intros Hpre Hpost Hok. apply period_ok_bounds in Hok as [Hper Hdeg].
  destruct (time_of_exact pre per post Hpre Hper Hpost) as [-> _].
  assert (Hpow : 1 <= 2 ^ pre /\ (0 < pre -> 2 <= 2 ^ pre)).
  { split.
    - change 1 with (2 ^ 0). apply Z.pow_le_mono_r; lia.
    - intros H. change 2 with (2 ^ 1) at 1. apply Z.pow_le_mono_r; lia. }
  assert (HN : 2 <= 2 ^ pre * per * post) by (destruct Hdeg; nia).
  apply Z.div_le_lower_bound; lia.
Qed.

(** X1.  For every non-negative target the returned time is nonzero exactly
    when the target lies between 32 ns and [MAX_TIME_NS]: targets up to
    31 ns and targets above the limit are reported unachievable, every other
    target is solved. *)
Theorem find_scalers_time_achievable_iff (target : Z) (out : scalers) :
  0 <= target ->
  fst (find_scalers_time target out) <> 0 <-> 32 <= target <= MAX_TIME_NS.
Proof.
  intros H0.
  destruct (Z_lt_le_dec MAX_TIME_NS target) as [Habove | Hbelow].
  - rewrite find_scalers_time_above by exact Habove. cbn [fst].
    split; [congruence | lia].
  - rewrite find_scalers_time_below by exact Hbelow.
    destruct (Z_lt_le_dec target 32) as [Hsmall | Hbig].
    + rewrite <- (Z2Nat.id target) at 1 by lia.
      rewrite search_result_small by lia. cbn [fst].
      split; [congruence | lia].
    + split; [lia |]. intros _.
      pose proof (search_accuracy target ltac:(lia)) as Hacc.
      unfold search_result. cbn [fst].
      revert Hacc. generalize (time_ns_best (search target)). intros b Hb Hz.
      subst b. rewrite MAX_TIME_NS_value in Hbelow.
      Z.div_mod_to_equations. lia.
Qed.

(** X2.  For every target between 32 ns and [MAX_TIME_NS] the returned time
    differs from the target by at most target/256 + 30 ns. *)
Theorem find_scalers_time_accuracy (target : Z) (out : scalers) :
  32 <= target <= MAX_TIME_NS ->
  Z.abs (fst (find_scalers_time target out) - target) <= target / 256 + 30.
Proof.
  intros Ht. rewrite find_scalers_time_below by lia.
  unfold search_result. cbn [fst]. now apply search_accuracy.
Qed.

(** X3.  The back-converted time of every valid divider combination is
    returned exactly when it is requested as the target. *)
Theorem find_scalers_time_reachable_exact (pre post per : Z) (out : scalers) :
  valid_combination pre post per = true ->
  fst (find_scalers_time (time_of pre per post) out) = time_of pre per post.
Proof.
  intros Hv. destruct (reachable_time_fixed pre post per Hv) as [Hr Hfix].
  rewrite find_scalers_time_below by lia.
  unfold search_result. cbn [fst]. exact Hfix.
Qed.

Lemma search_fixed (target : Z) :
  0 <= target <= MAX_TIME_NS ->
  0 <= time_ns_best (search target) <= MAX_TIME_NS /\
  time_ns_best (search (time_ns_best (search target)))
  = time_ns_best (search target).
Proof.
  intros Ht.
  destruct (search_inv target Ht) as (Hrec & _ & _).
  apply recorded_cases in Hrec as [H | (pre & post & Hpre & Hpost & Hok & H)];
    rewrite H; clear H.
  - change (time_ns_best search_init) with 0.
    split; [rewrite MAX_TIME_NS_value; lia | vm_compute; reflexivity].
  - cbn [time_ns_best].
    assert (Hv : valid_combination pre post
                   (period_of (ticks_of target / post) pre) = true).
    { now apply (examined_valid target pre post). }
    exact (reachable_time_fixed _ _ _ Hv).
Qed.

(** X4.  Solving for a time the solver returned gives that time again, for
    every non-negative target (zero included). *)
Theorem find_scalers_time_idempotent (target : Z) (out out' : scalers) :
  0 <= target ->
  fst (find_scalers_time (fst (find_scalers_time target out)) out')
  = fst (find_scalers_time target out).
Proof.
  intros H0.
  destruct (Z_lt_le_dec MAX_TIME_NS target) as [Habove | Hbelow].
  - rewrite (find_scalers_time_above target) by exact Habove. cbn [fst].
    vm_compute. reflexivity.
  - rewrite (find_scalers_time_below target) by exact Hbelow.
    destruct (search_fixed target ltac:(lia)) as [Hr Hfix].
    change (fst (search_result target)) with (time_ns_best (search target)).
    rewrite find_scalers_time_below by lia. exact Hfix.
Qed.

(** X5.  For every non-negative target the returned time is at most
    [MAX_TIME_NS], is zero or at least 62 ns (two ticks), and never exceeds
    twice the target. *)
Theorem find_scalers_time_result_range (target : Z) (out : scalers) :
  0 <= target ->
  let achieved := fst (find_scalers_time target out) in
  0 <= achieved <= MAX_TIME_NS
  /\ (achieved = 0 \/ 62 <= achieved)
  /\ achieved <= 2 * target.
Proof.
  intros H0. cbv zeta.
  destruct (Z_lt_le_dec MAX_TIME_NS target) as [Habove | Hbelow].
  - rewrite find_scalers_time_above by exact Habove. cbn [fst].
    rewrite MAX_TIME_NS_value. lia.
  - rewrite find_scalers_time_below by exact Hbelow.
    unfold search_result. cbn [fst].
    destruct (search_inv target ltac:(lia)) as (Hrec & Hle & _).
    pose proof (recorded_time_range _ _ Hrec) as Hrange.
    assert (Hmin : time_ns_best (search target) = 0
                   \/ 62 <= time_ns_best (search target)).
    { apply recorded_cases in Hrec
        as [H | (pre & post & Hpre & Hpost & Hok & H)]; rewrite H.
      - now left.
      - right. cbn [time_ns_best]. now apply candidate_time_at_least_62. }
    revert Hle Hrange Hmin. generalize (time_ns_best (search target)).
    intros b Hle Hrange Hmin. lia.
Qed.

Lemma land_128_cases (con : Z) :
  Z.land con 128 = if ON_bit con then 128 else 0.
Proof.
  unfold ON_bit. apply Z.bits_inj'. intros n Hn. rewrite Z.land_spec.
  change 128 with (2 ^ 7) at 1. rewrite Z.pow2_bits_eqb by lia.
  destruct (Z.eqb_spec 7 n) as [<- | Hne].
  - destruct (Z.testbit con 7); reflexivity.
  - rewrite andb_false_r. destruct (Z.testbit con 7).
    + change 128 with (2 ^ 7). rewrite Z.pow2_bits_eqb by lia.
      symmetry. now apply Z.eqb_neq.
    + now rewrite Z.testbit_0_l.
Qed.

Lemma con_value_decode (con : Z) (s : scalers) :
  0 <= prescale s <= 7 -> 0 <= postscale s <= 15 ->
  con_prescale (con_value con s) = prescale s
  /\ con_postscale (con_value con s) = postscale s
  /\ ON_bit (con_value con s) = ON_bit con.
Proof.
  destruct s as [pre post per]. cbn [prescale postscale]. intros Hpre Hpost.
  unfold con_value. cbn [prescale postscale]. rewrite land_128_cases.
  assert (Cpre : pre = 0 \/ pre = 1 \/ pre = 2 \/ pre = 3 \/ pre = 4
                 \/ pre = 5 \/ pre = 6 \/ pre = 7) by lia.
  assert (Cpost : post = 0 \/ post = 1 \/ post = 2 \/ post = 3 \/ post = 4
                  \/ post = 5 \/ post = 6 \/ post = 7 \/ post = 8 \/ post = 9
                  \/ post = 10 \/ post = 11 \/ post = 12 \/ post = 13
                  \/ post = 14 \/ post = 15) by lia.
  clear Hpre Hpost.
  destruct (ON_bit con);
    repeat (destruct Cpre as [-> | Cpre]); try subst pre;
    repeat (destruct Cpost as [-> | Cpost]); try subst post;
    repeat split; vm_compute; reflexivity.
Qed.

Lemma ON_bit_div (con : Z) : ON_bit con = Z.odd (con / 128).
Proof.
  unfold ON_bit. rewrite Z.testbit_odd, Z.shiftr_div_pow2 by lia. reflexivity.
Qed.

Lemma con_prescale_div (con : Z) : con_prescale con = (con / 16) mod 8.
Proof.
  unfold con_prescale. rewrite Z.shiftr_div_pow2 by lia.
  change 7 with (Z.ones 3). rewrite Z.land_ones by lia. reflexivity.
Qed.

Lemma con_postscale_mod (con : Z) : con_postscale con = con mod 16.
Proof.
  unfold con_postscale. change 15 with (Z.ones 4).
  rewrite Z.land_ones by lia. reflexivity.
Qed.

Lemma with_ON_bit_sum (v con : Z) :
  with_ON_bit v con = con mod 128 + 128 * (v mod 2).
Proof.
  unfold with_ON_bit.
  change 127 with (Z.ones 7). change 1 with (Z.ones 1) at 1.
  rewrite !Z.land_ones by lia. change (2 ^ 7) with 128. change (2 ^ 1) with 2.
  rewrite Z.shiftl_mul_pow2 by lia. change (2 ^ 7) with 128.
  rewrite <- Z.lxor_lor, <- Z.add_nocarry_lxor; try lia.
  all: rewrite Zmod_odd; destruct (Z.odd v); try apply Z.land_0_r;
    change (1 * 128) with 128; rewrite land_128_cases, ON_bit_div;
    rewrite Z.div_small by (apply Z.mod_pos_bound; lia); reflexivity.
Qed.

Lemma with_ON_bit_spec (v con : Z) :
  ON_bit (with_ON_bit v con) = Z.odd v
  /\ con_prescale (with_ON_bit v con) = con_prescale con
  /\ con_postscale (with_ON_bit v con) = con_postscale con.
Proof.
  rewrite ON_bit_div, !con_prescale_div, !con_postscale_mod, with_ON_bit_sum.
  split; [| split].
  - replace ((con mod 128 + 128 * (v mod 2)) / 128) with (v mod 2)
      by (Z.div_mod_to_equations; lia).
    rewrite Zmod_odd. destruct (Z.odd v); reflexivity.
  - Z.div_mod_to_equations. lia.
  - Z.div_mod_to_equations. lia.
Qed.

Lemma find_scalers_time_nonzero_form (target : Z) (out : scalers) :
  0 <= target -> fst (find_scalers_time target out) <> 0 ->
  exists pre post per,
    0 <= pre <= 7 /\ 1 <= post <= 16 /\ 1 <= per <= 255 /\
    find_scalers_time target out =
    (time_of pre per post, Scalers pre (post - 1) (per - 1)).
Proof.
  intros H0 Hnz.
  destruct (Z_lt_le_dec MAX_TIME_NS target) as [Habove | Hbelow].
  - rewrite find_scalers_time_above in Hnz by exact Habove. now cbn in Hnz.
  - rewrite find_scalers_time_below in * by exact Hbelow.
    destruct (search_inv target ltac:(lia)) as (Hrec & _ & _).
    apply recorded_cases in Hrec
      as [H | (pre & post & Hpre & Hpost & Hok & H)].
    + exfalso. apply Hnz. now rewrite (search_result_nothing target H).
    + pose proof (period_ok_bounds _ _ Hok) as [Hper _].
      exists pre, post, (period_of (ticks_of target / post) pre).
      repeat split; try lia.
      now apply search_result_candidate.
Qed.

Lemma con_value_same_ON (con con' : Z) (s : scalers) :
  ON_bit con' = ON_bit con -> con_value con' s = con_value con s.
Proof.
  intros H. unfold con_value. now rewrite !land_128_cases, H.
Qed.

Section TimingRegisters.

Variable stack : timing_frame.

(** X6.  After a timing update that succeeded, the prescale and postscale
    fields of T2CON with PR2, and those of T4CON with PR4, back-convert to the
    two achieved times handed back, and the ON bits of both timers are the
    ones from before the call. *)
Theorem set_strobe_timing_registers_reproduce (w d : Z) (m : machine) :
  0 <= w -> 0 <= d ->
  let r := set_strobe_timing stack w d m in
  fst (fst r) <> 0 -> snd (fst r) <> 0 ->
  back_convert (wait_timer_scalers (snd r)) = fst (fst r)
  /\ back_convert (duration_timer_scalers (snd r)) = snd (fst r)
  /\ ON_bit (T2CON (snd r)) = ON_bit (T2CON m)
  /\ ON_bit (T4CON (snd r)) = ON_bit (T4CON m).
Proof.
  intros Hw Hd. cbv zeta.
  destruct (set_strobe_timing_guard stack w d m) as (Ew & Ed & _ & Hboth).
  cbv zeta in Hboth. rewrite Ew, Ed. intros Hwn Hdn.
  specialize (Hboth Hwn Hdn).
  pose proof (run_timing_update
                (TimingFrame (snd (find_scalers_time w (wait_scalers stack)))
                   (snd (find_scalers_time d (duration_scalers stack)))
                   (t4con_copy stack)) m) as Hdiv.
  rewrite <- Hboth in Hdiv. cbn [wait_scalers duration_scalers] in Hdiv.
  destruct (find_scalers_time_nonzero_form w _ Hw Hwn)
    as (pw & qw & rw & Hpw & Hqw & Hrw & Efw).
  destruct (find_scalers_time_nonzero_form d _ Hd Hdn)
    as (pd & qd & rd & Hpd & Hqd & Hrd & Efd).
  rewrite Efw, Efd in *. cbn [fst snd period] in *.
  unfold dividers in Hdiv. injection Hdiv as E2 E4 EC2 EC4.
  destruct (con_value_decode (T2CON m) (Scalers pw (qw - 1) (rw - 1)))
    as (Dp2 & Dq2 & Do2); cbn [prescale postscale]; try lia.
  destruct (con_value_decode (T4CON m) (Scalers pd (qd - 1) (rd - 1)))
    as (Dp4 & Dq4 & Do4); cbn [prescale postscale]; try lia.
  cbn [prescale postscale] in *.
  unfold wait_timer_scalers, duration_timer_scalers, back_convert.
  cbn [prescale postscale period].
  rewrite E2, E4, EC2, EC4, Dp2, Dq2, Dp4, Dq4, !Z.sub_add.
  repeat split; assumption || reflexivity.
Qed.

End TimingRegisters.

Lemma run_timing_update_twice (f : timing_frame) (m : machine) :
  0 <= prescale (wait_scalers f) <= 7 ->
  0 <= postscale (wait_scalers f) <= 15 ->
  0 <= prescale (duration_scalers f) <= 7 ->
  0 <= postscale (duration_scalers f) <= 15 ->
  forall t4 : Z,
    snd (run timing_update
           (TimingFrame (wait_scalers f) (duration_scalers f) t4,
            snd (run timing_update (f, m))))
    = snd (run timing_update (f, m)).
Proof.
  intros Hp2 Hq2 Hp4 Hq4 t4.
  destruct (con_value_decode (T2CON m) (wait_scalers f) Hp2 Hq2)
    as (_ & _ & Ho2).
  destruct (con_value_decode (T4CON m) (duration_scalers f) Hp4 Hq4)
    as (_ & _ & Ho4).
  destruct f as [ws ds t0]. destruct m. cbn in *.
  rewrite (con_value_same_ON _ _ ws Ho2), (con_value_same_ON _ _ ds Ho4).
  reflexivity.
Qed.

Section TimingTwice.

Variable stack : timing_frame.

(** X7.  Applying the same timing request a second time returns the same
    achieved times and leaves the machine exactly as the first application
    left it. *)
Theorem set_strobe_timing_idempotent (w d : Z) (m : machine) :
  0 <= w -> 0 <= d ->
  set_strobe_timing stack w d (snd (set_strobe_timing stack w d m))
  = set_strobe_timing stack w d m.
Proof.
  intros Hw Hd.
  rewrite !set_strobe_timing_unfold. cbv zeta.
  pose proof (find_scalers_time_nonneg w (wait_scalers stack)) as Nw.
  pose proof (find_scalers_time_nonneg d (duration_scalers stack)) as Nd.
  rewrite !Z.gtb_ltb.
  destruct (Z.ltb_spec 0 (fst (find_scalers_time w (wait_scalers stack))))
    as [Hwp | Hwz];
    destruct (Z.ltb_spec 0
                (fst (find_scalers_time d (duration_scalers stack))))
      as [Hdp | Hdz]; cbn [andb fst snd]; try reflexivity.
  destruct (find_scalers_time_nonzero_form w (wait_scalers stack) Hw
              ltac:(lia)) as (pw & qw & rw & Hpw & Hqw & Hrw & Efw).
  destruct (find_scalers_time_nonzero_form d (duration_scalers stack) Hd
              ltac:(lia)) as (pd & qd & rd & Hpd & Hqd & Hrd & Efd).
  rewrite Efw, Efd. cbn [fst snd]. f_equal.
  apply (run_timing_update_twice
           (TimingFrame (Scalers pw (qw - 1) (rw - 1))
              (Scalers pd (qd - 1) (rd - 1)) (t4con_copy stack)) m);
    cbn [wait_scalers duration_scalers prescale postscale]; lia.
Qed.

End TimingTwice.

Lemma set_strobe_enable_ON_bits (enable : Z) (m : machine) :
  ON_bit (T2CON (set_strobe_enable enable m))
  = (trigger_mode m =? 0) && Z.odd enable
  /\ ON_bit (T4CON (set_strobe_enable enable m)) = true.
Proof.
  unfold set_strobe_enable. cbv zeta.
  change (trigger_mode (upd_strobe_enabled (if enable =? 0 then 0 else 1) m))
    with (trigger_mode m).
  destruct (with_ON_bit_spec 1 (T4CON m)) as (O4 & _).
  destruct (with_ON_bit_spec enable (T2CON m)) as (O2 & _).
  destruct (with_ON_bit_spec 0 (T2CON m)) as (O2' & _).
  destruct (trigger_mode m =? 0); cbn [andb]; split; assumption.
Qed.

(** X9.  [set_strobe_enable] records the enable as 0 or 1, always turns the
    duration timer on, turns the wait timer on only in software mode and only
    when the low bit of its argument is set (the one-bit field keeps that
    bit), and changes neither the dividers of the two timers nor the trigger
    mode nor the gate interrupt enable. *)
Theorem set_strobe_enable_effect (enable : Z) (m : machine) :
  let m' := set_strobe_enable enable m in
  strobe_enabled m' = (if enable =? 0 then 0 else 1)
  /\ ON_bit (T4CON m') = true
  /\ ON_bit (T2CON m') = (trigger_mode m =? 0) && Z.odd enable
  /\ wait_timer_scalers m' = wait_timer_scalers m
  /\ duration_timer_scalers m' = duration_timer_scalers m
  /\ trigger_mode m' = trigger_mode m /\ TMR1IE m' = TMR1IE m.
Proof.
  cbv zeta. destruct (set_strobe_enable_ON_bits enable m) as [O2 O4].
  split; [| split; [exact O4 | split; [exact O2 |]]].
  - unfold set_strobe_enable. cbv zeta. destruct (trigger_mode _ =? 0);
      reflexivity.
  - unfold set_strobe_enable. cbv zeta.
    change (trigger_mode (upd_strobe_enabled (if enable =? 0 then 0 else 1) m))
      with (trigger_mode m).
    destruct (with_ON_bit_spec 1 (T4CON m)) as (_ & P4 & Q4).
    destruct (with_ON_bit_spec enable (T2CON m)) as (_ & P2 & Q2).
    destruct (with_ON_bit_spec 0 (T2CON m)) as (_ & P2' & Q2').
    unfold wait_timer_scalers, duration_timer_scalers.
    destruct (trigger_mode m =? 0);
      repeat split; cbn; try reflexivity; f_equal; assumption.
Qed.

(** Case analysis on the packet type and size, as the [switch] does. *)
Ltac dispatch_cases p :=
  unfold dispatch, status_only;
  destruct (packet_type p =? 0) eqn:?;
  [| destruct (packet_type p =? PACKET_TYPE_SET_STROBE_ENABLE) eqn:?;
     [ destruct (packet_data_size p =? 1) eqn:?
     | destruct (packet_type p =? PACKET_TYPE_SET_STROBE_TIMING) eqn:?;
       [ destruct (packet_data_size p =? 8) eqn:?
       | destruct (packet_type p =? PACKET_TYPE_SET_STROBE_HOLD) eqn:?;
         [ destruct (packet_data_size p =? 1) eqn:?
         | destruct (packet_type p =? PACKET_TYPE_GET_CAM_READ_TIME) eqn:?;
           [ destruct (packet_data_size p =? 0) eqn:?
           | destruct (packet_type p =? PACKET_TYPE_SET_TRIGGER_MODE) eqn:?;
             [ destruct (packet_data_size p =? 1) eqn:? | ] ] ] ] ] ].

Lemma le_word32_nonneg (b0 b1 b2 b3 : Z) : 0 <= le_word32 b0 b1 b2 b3.
Proof.
  assert (Hu : forall b, 0 <= u8 b)
    by (intros b; unfold u8; apply Z.mod_pos_bound; reflexivity).
  unfold le_word32.
  repeat (apply Z.lor_nonneg; split); try apply Z.shiftl_nonneg; apply Hu.
Qed.

Section HostCommands.

Variable stack : timing_frame.
Variables ERR_OK ERR_PACKET_INVALID : Z.


Lemma set_strobe_timing_ON_bits (w d : Z) (m : machine) :
  0 <= w -> 0 <= d ->
  ON_bit (T2CON (snd (set_strobe_timing stack w d m))) = ON_bit (T2CON m)
  /\ ON_bit (T4CON (snd (set_strobe_timing stack w d m))) = ON_bit (T4CON m).
Proof.
  intros Hw Hd.
  destruct (set_strobe_timing_guard stack w d m) as (_ & _ & Hzero & Hboth).
  cbv zeta in Hzero, Hboth.
  destruct (Z.eq_dec (fst (find_scalers_time w (wait_scalers stack))) 0)
    as [Hwz | Hwn]; [rewrite Hzero by (now left); now split |].
  destruct (Z.eq_dec (fst (find_scalers_time d (duration_scalers stack))) 0)
    as [Hdz | Hdn]; [rewrite Hzero by (now right); now split |].
  rewrite (Hboth Hwn Hdn).
  destruct (find_scalers_time_nonzero_form w _ Hw Hwn)
    as (pw & qw & rw & Hpw & Hqw & Hrw & Efw).
  destruct (find_scalers_time_nonzero_form d _ Hd Hdn)
    as (pd & qd & rd & Hpd & Hqd & Hrd & Efd).
  rewrite Efw, Efd. cbn [snd].
  split.
  - apply (con_value_decode (T2CON m) (Scalers pw (qw - 1) (rw - 1)));
      cbn [prescale postscale]; lia.
  - apply (con_value_decode (T4CON m) (Scalers pd (qd - 1) (rd - 1)));
      cbn [prescale postscale]; lia.
Qed.

(** X10.  A host command turns a stopped wait timer on only if it is a
    well-sized SET_STROBE_ENABLE with a nonzero payload byte received in
    software trigger mode; in hardware mode no command starts it. *)
Theorem wait_timer_started_only_by_enable (p : packet) (m : machine) :
  ON_bit (T2CON m) = false ->
  ON_bit (T2CON (fst (dispatch stack ERR_OK ERR_PACKET_INVALID p m))) = true ->
  packet_type p = PACKET_TYPE_SET_STROBE_ENABLE
  /\ packet_data_size p = 1
  /\ data_byte p 0 <> 0
  /\ trigger_mode m = 0.
Proof.
  intros Hoff.
  dispatch_cases p; cbn [fst]; intros Hon;
    lazymatch type of Hon with
    | context [set_strobe_enable] =>
        destruct (set_strobe_enable_ON_bits
                    (if data_byte p 0 =? 0 then 0 else 1) m) as [O2 _];
        rewrite O2 in Hon; apply andb_prop in Hon as [Hm Hodd];
        destruct (Z.eqb_spec (data_byte p 0) 0) as [Hb | Hb];
        [discriminate Hodd |];
        repeat split; try assumption; now apply Z.eqb_eq
    | context [set_strobe_timing] =>
        destruct (set_strobe_timing_ON_bits
                    (le_word32 (data_byte p 0) (data_byte p 1)
                       (data_byte p 2) (data_byte p 3))
                    (le_word32 (data_byte p 4) (data_byte p 5)
                       (data_byte p 6) (data_byte p 7)) m
                    (le_word32_nonneg _ _ _ _) (le_word32_nonneg _ _ _ _))
          as [H2 _];
        destruct (set_strobe_timing stack _ _ m) as [[wns dns] m1];
        cbn [fst snd T2CON upd_return_buf] in *; congruence
    | _ =>
        exfalso; unfold set_strobe_hold, set_trigger_mode in Hon;
        cbv zeta in Hon; try destruct (trigger_mode _ =? 1);
        cbn [T2CON upd_TMR1IF upd_TMR1IE upd_trigger_mode upd_LC3G3POL
               upd_return_buf] in Hon;
        congruence
    end.
Qed.

End HostCommands.

Lemma mode_consistent_fields (m m' : machine) :
  mode_fields m' = mode_fields m -> mode_consistent m -> mode_consistent m'.
Proof.
  unfold mode_fields, mode_consistent. intros H. injection H as -> -> ->.
  trivial.
Qed.

Section MainLoop.

Variable stack : timing_frame.
Variables ERR_OK ERR_PACKET_INVALID : Z.

Lemma dispatch_mode_consistent (p : packet) (m : machine) :
  mode_consistent m ->
  mode_consistent (fst (dispatch stack ERR_OK ERR_PACKET_INVALID p m)).
Proof.
  intros Hm.
  dispatch_cases p; cbn [fst]; try exact Hm.
  - (* SET_STROBE_ENABLE *)
    destruct Hm as (Hmode & _ & Hie).
    unfold set_strobe_enable. cbv zeta.
    destruct (trigger_mode _ =? 0); unfold mode_consistent; cbn;
      (split; [exact Hmode | split; [| exact Hie]]);
      destruct (data_byte p 0 =? 0); cbn; auto.
  - (* SET_STROBE_TIMING *)
    assert (Hf : forall w d,
               mode_fields (snd (set_strobe_timing stack w d m))
               = mode_fields m).
    { intros w d. rewrite set_strobe_timing_unfold. cbv zeta.
      destruct (_ && _); reflexivity. }
    specialize (Hf (le_word32 (data_byte p 0) (data_byte p 1) (data_byte p 2)
                      (data_byte p 3))
                   (le_word32 (data_byte p 4) (data_byte p 5) (data_byte p 6)
                      (data_byte p 7))).
    destruct (set_strobe_timing stack _ _ m) as [[wns dns] m1].
    cbn [fst snd] in *.
    apply (mode_consistent_fields m); [| exact Hm]. exact Hf.
  - (* SET_TRIGGER_MODE *)
    destruct Hm as (_ & Hen & _).
    unfold set_trigger_mode. cbv zeta.
    destruct (data_byte p 0 =? 0); unfold mode_consistent; cbn; auto.
Qed.

Lemma poll_gate_mode_consistent (m : machine) :
  mode_consistent m -> mode_consistent (poll_gate m).
Proof.
  apply mode_consistent_fields. unfold poll_gate.
  destruct (T1GGO m); reflexivity.
Qed.

(** X11.  Over any sequence of main loop iterations, each with or without a
    packet, [trigger_mode] and [strobe_enabled] stay 0 or 1 and the gate
    interrupt stays enabled exactly in hardware mode. *)
Theorem main_loop_keeps_mode_consistent
    (rxs : list (option packet)) (m : machine) :
  mode_consistent m ->
  mode_consistent (main_loop stack ERR_OK ERR_PACKET_INVALID rxs m).
Proof.
  unfold main_loop. revert m.
  induction rxs as [| rx rxs IH]; intros m Hm; [exact Hm |].
  cbn [fold_left]. apply IH. unfold main_loop_body.
  destruct rx as [p |].
  - pose proof (dispatch_mode_consistent p m Hm) as Hd.
    destruct (dispatch stack ERR_OK ERR_PACKET_INVALID p m) as [m1 r].
    cbn [fst] in *. now apply poll_gate_mode_consistent.
  - cbn [fst]. now apply poll_gate_mode_consistent.
Qed.

End MainLoop.

Section GateEdges.

Variable stack : timing_frame.
Variables ERR_OK ERR_PACKET_INVALID : Z.
Variables PIN_MANAGER_IOC SPI1_ISR : machine -> machine.

Lemma handler_gate_branch (m : machine) :
  gate_edge_taken m = true ->
  INTERRUPT_InterruptManager PIN_MANAGER_IOC SPI1_ISR m =
  TMR1_StartSinglePulseAcquisition
    (hardware_trigger_strobe (upd_TMR1IF false m)).
Proof.
  unfold gate_edge_taken. intros H.
  repeat (apply andb_prop in H as [H ?]).
  apply negb_true_iff in H.
  match goal with Hg : negb (T1GGO m) = true |- _ =>
    apply negb_true_iff in Hg; rename Hg into Hgo end.
  unfold INTERRUPT_InterruptManager. rewrite H.
  repeat match goal with Hb : _ = true |- _ => rewrite Hb; clear Hb end.
  cbn [andb]. cbv zeta.
  replace (T1GGO (upd_TMR1IF false m)) with false by (symmetry; exact Hgo).
  reflexivity.
Qed.

(** X12.  An edge taken by the interrupt handler re-arms the capture before
    the foreground can see the gate closed: the poll that follows does
    nothing, so [cam_read_time_us] and the gate timer count are not updated by
    that edge; the handler also leaves the dividers of both timers, T4CON and
    the hold polarity as they were. *)
Theorem serviced_edge_bypasses_measurement (m : machine) :
  gate_edge_taken m = true ->
  let m' := INTERRUPT_InterruptManager PIN_MANAGER_IOC SPI1_ISR m in
  poll_gate m' = m'
  /\ cam_read_time_us m' = cam_read_time_us m
  /\ TMR1 m' = TMR1 m
  /\ wait_timer_scalers m' = wait_timer_scalers m
  /\ duration_timer_scalers m' = duration_timer_scalers m
  /\ T4CON m' = T4CON m
  /\ LC3G3POL m' = LC3G3POL m.
Proof.
  intros H. cbv zeta. rewrite (handler_gate_branch m H).
  unfold hardware_trigger_strobe.
  change (strobe_enabled (upd_TMR1IF false m)) with (strobe_enabled m).
  change (trigger_mode (upd_TMR1IF false m)) with (trigger_mode m).
  destruct (with_ON_bit_spec 1 (T2CON m)) as (_ & P2 & Q2).
  destruct (negb (strobe_enabled m =? 0) && (trigger_mode m =? 1));
    repeat split; try reflexivity.
  unfold wait_timer_scalers. cbn. f_equal; assumption.
Qed.

(** X13.  After [set_trigger_mode] with any argument other than 1, a gate
    edge does not run the handler's gate branch; the next poll stores the gate
    timer count in [cam_read_time_us], clears the count and re-arms the
    capture, and the wait timer is not touched. *)
Theorem software_mode_edge_is_only_measured (mode : Z) (m : machine) :
  mode <> 1 ->
  let m1 := set_trigger_mode mode m in
  let m2 := poll_gate (gate_edge PIN_MANAGER_IOC SPI1_ISR m1) in
  cam_read_time_us m2 = u16 (TMR1 m)
  /\ TMR1 m2 = 0 /\ T1GGO m2 = true
  /\ TMR2 m2 = TMR2 m /\ T2CON m2 = T2CON m
  /\ trace m2 = trace m ++ [Ev_StartSinglePulseAcquisition].
Proof.
  intros Hmode. cbv zeta. unfold set_trigger_mode. cbv zeta.
  apply Z.eqb_neq in Hmode. rewrite Hmode.
  cbn [trigger_mode upd_trigger_mode Z.eqb].
  unfold gate_edge. cbv zeta. cbn [TMR1IE upd_TMR1IF upd_T1GGO upd_TMR1IE].
  rewrite andb_false_r. unfold poll_gate.
  cbn [T1GGO upd_TMR1IF upd_T1GGO negb].
  repeat split; reflexivity.
Qed.

(** X14.  SET_TRIGGER_MODE and SET_STROBE_ENABLE with nonzero payload bytes
    leave the machine in hardware mode, enabled, with the gate interrupt on,
    the wait timer held off and the duration timer on; with peripheral
    interrupts enabled and no interrupt-on-change pending, the next gate edge
    clears TMR2, turns the wait timer on, clears the interrupt flag and
    re-arms the capture. *)
Theorem hardware_trigger_sequence (p1 p2 : packet) (m : machine) :
  packet_type p1 = PACKET_TYPE_SET_TRIGGER_MODE -> packet_data_size p1 = 1 ->
  data_byte p1 0 <> 0 ->
  packet_type p2 = PACKET_TYPE_SET_STROBE_ENABLE -> packet_data_size p2 = 1 ->
  data_byte p2 0 <> 0 ->
  PEIE m = true -> IOCIE m && IOCIF m = false ->
  let m1 := fst (dispatch stack ERR_OK ERR_PACKET_INVALID p1 m) in
  let m2 := fst (dispatch stack ERR_OK ERR_PACKET_INVALID p2 m1) in
  let m3 := gate_edge PIN_MANAGER_IOC SPI1_ISR m2 in
  trigger_mode m2 = 1 /\ strobe_enabled m2 = 1 /\ TMR1IE m2 = true
  /\ ON_bit (T2CON m2) = false /\ ON_bit (T4CON m2) = true
  /\ TMR2 m3 = 0 /\ ON_bit (T2CON m3) = true /\ T1GGO m3 = true
  /\ TMR1IF m3 = false.
Proof.
  intros T1 S1 B1 T2 S2 B2 Hpeie Hioc. cbv zeta.
  apply Z.eqb_neq in B1, B2.
  assert (E1 : fst (dispatch stack ERR_OK ERR_PACKET_INVALID p1 m)
               = set_trigger_mode 1 m).
  { unfold dispatch. rewrite T1, S1, B1. reflexivity. }
  rewrite E1.
  assert (E2 : fst (dispatch stack ERR_OK ERR_PACKET_INVALID p2
                      (set_trigger_mode 1 m))
               = set_strobe_enable 1 (set_trigger_mode 1 m)).
  { unfold dispatch. rewrite T2, S2, B2. reflexivity. }
  rewrite E2.
  set (m2 := set_strobe_enable 1 (set_trigger_mode 1 m)).
  destruct (set_strobe_enable_ON_bits 1 (set_trigger_mode 1 m)) as [O2 O4].
  fold m2 in O2, O4.
  change (trigger_mode (set_trigger_mode 1 m)) with 1 in O2.
  cbn [Z.eqb andb] in O2.
  assert (Htaken : gate_edge_taken (raise_gate_flag m2) = true).
  { unfold gate_edge_taken.
    change (IOCIE (raise_gate_flag m2)) with (IOCIE m).
    change (IOCIF (raise_gate_flag m2)) with (IOCIF m).
    change (PEIE (raise_gate_flag m2)) with (PEIE m).
    rewrite Hioc, Hpeie. reflexivity. }
  assert (E3 : gate_edge PIN_MANAGER_IOC SPI1_ISR m2
               = INTERRUPT_InterruptManager PIN_MANAGER_IOC SPI1_ISR
                   (raise_gate_flag m2)).
  { unfold gate_edge. cbv zeta. fold (raise_gate_flag m2).
    change (PEIE (raise_gate_flag m2)) with (PEIE m).
    change (TMR1IE (raise_gate_flag m2)) with true.
    rewrite Hpeie. reflexivity. }
  rewrite E3, (handler_gate_branch _ Htaken).
  unfold hardware_trigger_strobe.
  change (strobe_enabled (upd_TMR1IF false (raise_gate_flag m2))) with 1.
  change (trigger_mode (upd_TMR1IF false (raise_gate_flag m2))) with 1.
  cbn [Z.eqb negb andb].
  repeat split; try reflexivity; try assumption.
  apply ON_bit_with_ON_bit_1.
Qed.

End GateEdges.

Section Responses.

Variable stack : timing_frame.
Variables ERR_OK ERR_PACKET_INVALID : Z.

(** X15.  A packet whose type is none of the five commands (type 0
    included) gets no response and changes nothing. *)
Theorem dispatch_unrecognised_ignored (p : packet) (m : machine) :
  expected_size (packet_type p) = None ->
  dispatch stack ERR_OK ERR_PACKET_INVALID p m = (m, None).
Proof.
  unfold expected_size, dispatch. intros H.
  repeat match type of H with
  | (if ?c then _ else _) = _ => destruct c; [discriminate H |]
  end.
  destruct (packet_type p =? 0); reflexivity.
Qed.

(** X16.  A well-sized SET_STROBE_ENABLE is answered with ERR_OK; any nonzero
    payload byte, odd or even, enables the strobe and, in software mode,
    turns the wait timer on; a zero byte disables it; the duration timer is
    turned on in every case. *)
Theorem dispatch_enable_normalises (p : packet) (m : machine) :
  packet_type p = PACKET_TYPE_SET_STROBE_ENABLE ->
  packet_data_size p = 1 ->
  let r := dispatch stack ERR_OK ERR_PACKET_INVALID p m in
  snd r = Some (Response PACKET_TYPE_SET_STROBE_ENABLE [u8 ERR_OK])
  /\ strobe_enabled (fst r) = (if data_byte p 0 =? 0 then 0 else 1)
  /\ ON_bit (T2CON (fst r))
     = (trigger_mode m =? 0) && negb (data_byte p 0 =? 0)
  /\ ON_bit (T4CON (fst r)) = true.
Proof.
  intros Hty Hsize. cbv zeta. unfold dispatch, status_only.
  rewrite Hty, Hsize. cbn [Z.eqb Pos.eqb PACKET_TYPE_SET_STROBE_ENABLE fst snd].
  destruct (set_strobe_enable_ON_bits
              (if data_byte p 0 =? 0 then 0 else 1) m) as [O2 O4].
  rewrite O2, O4.
  split; [reflexivity |]. split.
  - unfold set_strobe_enable. cbv zeta.
    destruct (trigger_mode _ =? 0); destruct (data_byte p 0 =? 0); reflexivity.
  - split; [| reflexivity]. destruct (data_byte p 0 =? 0); reflexivity.
Qed.

(** X17.  A well-sized SET_TRIGGER_MODE is answered with ERR_OK; any nonzero
    payload byte selects hardware mode and enables the gate interrupt, a zero
    byte selects software mode and disables it. *)
Theorem dispatch_trigger_mode_normalises (p : packet) (m : machine) :
  packet_type p = PACKET_TYPE_SET_TRIGGER_MODE ->
  packet_data_size p = 1 ->
  let r := dispatch stack ERR_OK ERR_PACKET_INVALID p m in
  snd r = Some (Response PACKET_TYPE_SET_TRIGGER_MODE [u8 ERR_OK])
  /\ trigger_mode (fst r) = (if data_byte p 0 =? 0 then 0 else 1)
  /\ TMR1IE (fst r) = negb (data_byte p 0 =? 0)
  /\ TMR1IE (fst r) = (trigger_mode (fst r) =? 1).
Proof.
  intros Hty Hsize. cbv zeta. unfold dispatch, status_only.
  rewrite Hty, Hsize. cbn [Z.eqb Pos.eqb PACKET_TYPE_SET_TRIGGER_MODE fst snd].
  unfold set_trigger_mode.
  destruct (data_byte p 0 =? 0); repeat split; reflexivity.
Qed.

Lemma le_bytes16_value (x : Z) :
  0 <= x < 2 ^ 16 ->
  nth 0 (le_bytes16 x) 0 + 256 * nth 1 (le_bytes16 x) 0 = x.
Proof.
  intros Hx. cbn [nth le_bytes16]. unfold u8.
  rewrite Z.shiftr_div_pow2 by lia.
  change (2 ^ 8) with 256. change (2 ^ 16) with 65536 in Hx.
  Z.div_mod_to_equations. lia.
Qed.

(** X18.  When the gate has closed, the poll followed by GET_CAM_READ_TIME
    answers ERR_OK and the gate timer count (modulo 2^16) as two little-endian
    bytes, with the count cleared, the capture re-armed and the divider
    registers untouched. *)
Theorem dispatch_reports_measurement (p : packet) (m : machine) :
  packet_type p = PACKET_TYPE_GET_CAM_READ_TIME ->
  packet_data_size p = 0 ->
  T1GGO m = false ->
  let m1 := poll_gate m in
  let r := dispatch stack ERR_OK ERR_PACKET_INVALID p m1 in
  exists lo hi,
    snd r = Some (Response PACKET_TYPE_GET_CAM_READ_TIME [u8 ERR_OK; lo; hi])
    /\ lo + 256 * hi = (TMR1 m) mod 2 ^ 16
    /\ TMR1 (fst r) = 0 /\ T1GGO (fst r) = true
    /\ dividers (fst r) = dividers m.
Proof.
  intros Hty Hsize Hgo. cbv zeta. unfold dispatch, status_only.
  rewrite Hty, Hsize. cbn [Z.eqb Pos.eqb PACKET_TYPE_GET_CAM_READ_TIME fst snd].
  unfold poll_gate. rewrite Hgo. cbn [negb].
  exists (nth 0 (le_bytes16 (u16 (TMR1 m))) 0),
         (nth 1 (le_bytes16 (u16 (TMR1 m))) 0).
  split; [reflexivity |]. split.
  - apply le_bytes16_value. unfold u16. apply Z.mod_pos_bound. reflexivity.
  - repeat split; reflexivity.
Qed.

End Responses.

(** ** Instances *)

Lemma find_scalers_time_achievable_iff_witness :
  fst (find_scalers_time 32 (Scalers 0 0 0)) <> 0 <-> 32 <= 32 <= MAX_TIME_NS.
Proof.
  apply (find_scalers_time_achievable_iff 32 (Scalers 0 0 0)). lia.
Defined.

Lemma find_scalers_time_accuracy_witness :
  Z.abs (fst (find_scalers_time 116703 (Scalers 0 0 0)) - 116703)
  <= 116703 / 256 + 30.
Proof.
  apply (find_scalers_time_accuracy 116703 (Scalers 0 0 0)).
  rewrite MAX_TIME_NS_value. lia.
Defined.

Lemma find_scalers_time_reachable_exact_witness :
  fst (find_scalers_time (time_of 0 249 15) (Scalers 0 0 0))
  = time_of 0 249 15.
Proof.
  apply (find_scalers_time_reachable_exact 0 15 249 (Scalers 0 0 0)).
  reflexivity.
Defined.

Lemma find_scalers_time_idempotent_witness :
  fst (find_scalers_time
         (fst (find_scalers_time 116703 (Scalers 0 0 0))) (Scalers 0 0 0))
  = fst (find_scalers_time 116703 (Scalers 0 0 0)).
Proof.
  apply (find_scalers_time_idempotent 116703 (Scalers 0 0 0) (Scalers 0 0 0)).
  lia.
Defined.

Lemma find_scalers_time_result_range_witness :
  fst (find_scalers_time 20000000 (Scalers 0 0 0)) <= 2 * 20000000.
Proof.
  apply (find_scalers_time_result_range 20000000 (Scalers 0 0 0)). lia.
Defined.

Lemma set_strobe_timing_registers_reproduce_witness :
  let r := set_strobe_timing (TimingFrame (Scalers 9 9 9) (Scalers 9 9 9) 9)
             1000000 500000 armed_machine in
  back_convert (wait_timer_scalers (snd r)) = fst (fst r)
  /\ back_convert (duration_timer_scalers (snd r)) = snd (fst r)
  /\ ON_bit (T2CON (snd r)) = ON_bit (T2CON armed_machine)
  /\ ON_bit (T4CON (snd r)) = ON_bit (T4CON armed_machine).
Proof.
  apply (set_strobe_timing_registers_reproduce
           (TimingFrame (Scalers 9 9 9) (Scalers 9 9 9) 9)
           1000000 500000 armed_machine).
  - lia.
  - lia.
  - vm_compute. discriminate.
  - vm_compute. discriminate.
Defined.

Lemma set_strobe_timing_idempotent_witness :
  let stack := TimingFrame (Scalers 9 9 9) (Scalers 9 9 9) 9 in
  set_strobe_timing stack 1000000 500000
    (snd (set_strobe_timing stack 1000000 500000 armed_machine))
  = set_strobe_timing stack 1000000 500000 armed_machine.
Proof.
  apply (set_strobe_timing_idempotent
           (TimingFrame (Scalers 9 9 9) (Scalers 9 9 9) 9)
           1000000 500000 armed_machine); lia.
Defined.

Lemma wait_timer_started_only_by_enable_witness :
  let p := Packet PACKET_TYPE_SET_STROBE_ENABLE [2] 1 in
  packet_type p = PACKET_TYPE_SET_STROBE_ENABLE
  /\ packet_data_size p = 1
  /\ data_byte p 0 <> 0
  /\ trigger_mode reset_machine = 0.
Proof.
  apply (wait_timer_started_only_by_enable
           (TimingFrame (Scalers 9 9 9) (Scalers 9 9 9) 9) 0 1
           (Packet PACKET_TYPE_SET_STROBE_ENABLE [2] 1) reset_machine).
  - reflexivity.
  - vm_compute. reflexivity.
Defined.

Lemma main_loop_keeps_mode_consistent_witness :
  mode_consistent
    (main_loop (TimingFrame (Scalers 9 9 9) (Scalers 9 9 9) 9) 0 1
       [Some (Packet PACKET_TYPE_SET_TRIGGER_MODE [1] 1); None;
        Some (Packet PACKET_TYPE_SET_STROBE_ENABLE [1] 1);
        Some (Packet PACKET_TYPE_SET_STROBE_TIMING
                [64; 66; 15; 0; 32; 161; 7; 0] 8)]
       reset_machine).
Proof.
  apply (main_loop_keeps_mode_consistent
           (TimingFrame (Scalers 9 9 9) (Scalers 9 9 9) 9) 0 1).
  unfold mode_consistent. vm_compute. auto.
Defined.

Lemma serviced_edge_bypasses_measurement_witness :
  let m' := INTERRUPT_InterruptManager (fun m => m) (fun m => m)
              (raise_gate_flag armed_machine) in
  poll_gate m' = m'
  /\ cam_read_time_us m' = cam_read_time_us (raise_gate_flag armed_machine).
Proof.
  cbv zeta.
  destruct (serviced_edge_bypasses_measurement (fun m => m) (fun m => m)
              (raise_gate_flag armed_machine) eq_refl) as (Hpoll & Hcam & _).
  split; [exact Hpoll | exact Hcam].
Defined.

Lemma software_mode_edge_is_only_measured_witness :
  let m := upd_TMR1 1234 armed_machine in
  let m2 := poll_gate
              (gate_edge (fun m => m) (fun m => m) (set_trigger_mode 0 m)) in
  cam_read_time_us m2 = u16 (TMR1 m) /\ T2CON m2 = T2CON m.
Proof.
  cbv zeta.
  destruct (software_mode_edge_is_only_measured (fun m => m) (fun m => m) 0
              (upd_TMR1 1234 armed_machine) ltac:(lia))
    as (Hcam & _ & _ & _ & Hcon & _).
  split; [exact Hcam | exact Hcon].
Defined.

Lemma hardware_trigger_sequence_witness :
  let stack := TimingFrame (Scalers 9 9 9) (Scalers 9 9 9) 9 in
  let m1 := fst (dispatch stack 0 1
                   (Packet PACKET_TYPE_SET_TRIGGER_MODE [1] 1)
                   reset_machine) in
  let m2 := fst (dispatch stack 0 1
                   (Packet PACKET_TYPE_SET_STROBE_ENABLE [1] 1) m1) in
  let m3 := gate_edge (fun m => m) (fun m => m) m2 in
  ON_bit (T2CON m2) = false /\ TMR2 m3 = 0 /\ ON_bit (T2CON m3) = true.
Proof.
  cbv zeta.
  destruct (hardware_trigger_sequence
              (TimingFrame (Scalers 9 9 9) (Scalers 9 9 9) 9) 0 1
              (fun m => m) (fun m => m)
              (Packet PACKET_TYPE_SET_TRIGGER_MODE [1] 1)
              (Packet PACKET_TYPE_SET_STROBE_ENABLE [1] 1)
              reset_machine
              eq_refl eq_refl ltac:(cbn; lia) eq_refl eq_refl
              ltac:(cbn; lia) eq_refl eq_refl)
    as (_ & _ & _ & Hoff & _ & Hclr & Hon & _).
  repeat split; assumption.
Defined.

Lemma dispatch_unrecognised_ignored_witness :
  dispatch (TimingFrame (Scalers 9 9 9) (Scalers 9 9 9) 9) 0 1
    (Packet 9 [1; 2; 3] 3) armed_machine
  = (armed_machine, None).
Proof.
  apply (dispatch_unrecognised_ignored
           (TimingFrame (Scalers 9 9 9) (Scalers 9 9 9) 9) 0 1
           (Packet 9 [1; 2; 3] 3) armed_machine).
  reflexivity.
Defined.

Lemma dispatch_enable_normalises_witness :
  let r := dispatch (TimingFrame (Scalers 9 9 9) (Scalers 9 9 9) 9) 0 1
             (Packet PACKET_TYPE_SET_STROBE_ENABLE [2] 1) reset_machine in
  strobe_enabled (fst r) = 1 /\ ON_bit (T2CON (fst r)) = true.
Proof.
  cbv zeta.
  destruct (dispatch_enable_normalises
              (TimingFrame (Scalers 9 9 9) (Scalers 9 9 9) 9) 0 1
              (Packet PACKET_TYPE_SET_STROBE_ENABLE [2] 1) reset_machine
              eq_refl eq_refl) as (_ & Hen & Hon & _).
  split; [exact Hen | exact Hon].
Defined.

Lemma dispatch_trigger_mode_normalises_witness :
  let r := dispatch (TimingFrame (Scalers 9 9 9) (Scalers 9 9 9) 9) 0 1
             (Packet PACKET_TYPE_SET_TRIGGER_MODE [2] 1) reset_machine in
  trigger_mode (fst r) = 1 /\ TMR1IE (fst r) = true.
Proof.
  cbv zeta.
  destruct (dispatch_trigger_mode_normalises
              (TimingFrame (Scalers 9 9 9) (Scalers 9 9 9) 9) 0 1
              (Packet PACKET_TYPE_SET_TRIGGER_MODE [2] 1) reset_machine
              eq_refl eq_refl) as (_ & Hmode & Hie & _).
  split; [exact Hmode | exact Hie].
Defined.

Lemma dispatch_reports_measurement_witness :
  let m := upd_T1GGO false (upd_TMR1 1234 reset_machine) in
  let r := dispatch (TimingFrame (Scalers 9 9 9) (Scalers 9 9 9) 9) 0 1
             (Packet PACKET_TYPE_GET_CAM_READ_TIME [] 0) (poll_gate m) in
  exists lo hi,
    snd r = Some (Response PACKET_TYPE_GET_CAM_READ_TIME [u8 0; lo; hi])
    /\ lo + 256 * hi = 1234 mod 2 ^ 16.
Proof.
  cbv zeta.
  destruct (dispatch_reports_measurement
              (TimingFrame (Scalers 9 9 9) (Scalers 9 9 9) 9) 0 1
              (Packet PACKET_TYPE_GET_CAM_READ_TIME [] 0)
              (upd_T1GGO false (upd_TMR1 1234 reset_machine))
              eq_refl eq_refl eq_refl) as (lo & hi & Hresp & Hval & _).
  exists lo, hi. split; [exact Hresp | exact Hval].
Defined.
